(** * A shallow embedding of the Nexus Mods OAuth/PKCE authentication core
    of FromSoftModManager ([app/services/nexus_oauth.py] and
    [app/services/nexus_sso.py]).

    Python strings are lists of code points, Python bytes are lists of
    integers in [0, 256), and the JSON values handled by the code are the
    inductive [pyval].  Library functions whose exact behaviour the code
    does not depend on ([json.loads], exception texts, the token endpoint)
    are kept as parameters of Sections. *)

From Stdlib Require Import ZArith List String Ascii Bool Lia.
Import ListNotations.
Set Warnings "-register-all".

(** ** Python strings and values *)
Module Py.

Open Scope Z_scope.

(** A Python [str]: its code points. *)
Definition pystr := list Z.

(** A Rocq ASCII literal as a Python string. *)
Definition py (s : string) : pystr :=
  map (fun c => Z.of_nat (nat_of_ascii c)) (list_ascii_of_string s).

Fixpoint str_eqb (a b : pystr) : bool :=
  match a, b with
  | [], [] => true
  | x :: a', y :: b' => Z.eqb x y && str_eqb a' b'
  | _, _ => false
  end.

(** Python truthiness of a value that is [None] or a [str]. *)
Definition truthy (o : option pystr) : bool :=
  match o with
  | Some s => negb (str_eqb s [])
  | None => false
  end.

(** [a == b] on values that are [None] or a [str]. *)
Definition opt_str_eqb (a b : option pystr) : bool :=
  match a, b with
  | Some x, Some y => str_eqb x y
  | None, None => true
  | _, _ => false
  end.

Fixpoint prefixb (p s : pystr) : bool :=
  match p, s with
  | [], _ => true
  | x :: p', y :: s' => Z.eqb x y && prefixb p' s'
  | _ :: _, [] => false
  end.

(** [p in s] for two [str]s: substring test. *)
Fixpoint containsb (s p : pystr) : bool :=
  prefixb p s || match s with [] => false | _ :: s' => containsb s' p end.

Fixpoint digits_aux (fuel : nat) (n : Z) (acc : pystr) : pystr :=
  match fuel with
  | O => acc
  | S f =>
      let acc' := (48 + n mod 10) :: acc in
      if n <? 10 then acc' else digits_aux f (n / 10) acc'
  end.

(** [str(n)] for a Python [int]. *)
Definition str_of_Z (n : Z) : pystr :=
  let fuel := S (Z.to_nat (Z.log2 (Z.abs n))) in
  if n <? 0 then 45 :: digits_aux fuel (- n) [] else digits_aux fuel n [].

(** The JSON-shaped Python values the code manipulates (floats are not
    modelled). A [dict] is its list of items in insertion order. *)
Inductive pyval :=
| PNone
| PBool (b : bool)
| PInt (n : Z)
| PStr (s : pystr)
| PList (l : list pyval)
| PDict (d : list (pystr * pyval)).

Definition dict := list (pystr * pyval).

(** [d.get(k)] *)
Fixpoint dict_get (d : dict) (k : pystr) : option pyval :=
  match d with
  | [] => None
  | (k', v) :: d' => if str_eqb k' k then Some v else dict_get d' k
  end.

Definition dict_mem (d : dict) (k : pystr) : bool :=
  match dict_get d k with Some _ => true | None => false end.

(** [d[k] = v]: an existing key keeps its place, a new one goes last. *)
Fixpoint dict_set (d : dict) (k : pystr) (v : pyval) : dict :=
  match d with
  | [] => [(k, v)]
  | (k', v') :: d' =>
      if str_eqb k' k then (k', v) :: d' else (k', v') :: dict_set d' k v
  end.

End Py.
Import Py.

(** ** The localhost callback listener ([_CallbackHandler], [_OAuthHTTPServer]) *)
Module Callback.

(** The query string of a request, as the [(name, value)] pairs it holds
    after splitting on [&] and [=] and unquoting, blank values included. *)
Definition query := list (pystr * pystr).

(** [parse_qs(query).get(k, [None])[0]]: [parse_qs] drops blank values
    ([keep_blank_values=False]) and keeps the others in order. *)
Fixpoint param (k : pystr) (q : query) : option pystr :=
  match q with
  | [] => None
  | (n, v) :: q' =>
      if str_eqb n k && negb (str_eqb v []) then Some v else param k q'
  end.

Definition msg_no_code : pystr := py "No authorization code received".

(** ["State mismatch — possible CSRF attack"] (U+2014 is the dash). *)
Definition msg_csrf : pystr :=
  py "State mismatch " ++ [8212%Z] ++ py " possible CSRF attack".

(** [_OAuthHTTPServer] with the [socketserver.BaseServer] fields the code
    relies on: [__is_shut_down] (a [threading.Event] set only by
    [serve_forever]) and whether the listening socket is still open. *)
Record server := mkServer {
  expected_state : pystr;
  oauth_code : option pystr;
  oauth_error : option pystr;
  is_shut_down : bool;
  bound : bool }.

(** [_OAuthHTTPServer(state, ("127.0.0.1", REDIRECT_PORT), _CallbackHandler)] *)
Definition new_server (state : pystr) : server :=
  mkServer state None None false true.

Definition set_oauth_code (s : server) (c : option pystr) : server :=
  mkServer (expected_state s) c (oauth_error s) (is_shut_down s) (bound s).

Definition set_oauth_error (s : server) (e : option pystr) : server :=
  mkServer (expected_state s) (oauth_code s) e (is_shut_down s) (bound s).

(** [server.server_close()] *)
Definition server_close (s : server) : server :=
  mkServer (expected_state s) (oauth_code s) (oauth_error s) (is_shut_down s) false.

Inductive response :=
| R404
| R200 (html : pystr).

Definition page_ok : pystr :=
  py "<html><body style='font-family:sans-serif;text-align:center;padding:60px;background:#1a1a2e;color:#e0e0ec;'><h2>Authorization successful!</h2><p>You can close this tab and return to FromSoft Mod Manager.</p></body></html>".

Definition page_fail (e : option pystr) : pystr :=
  py "<html><body style='font-family:sans-serif;text-align:center;padding:60px;background:#1a1a2e;color:#e0e0ec;'><h2>Authorization failed</h2><p>"
  ++ (if truthy e then match e with Some m => m | None => [] end
      else py "Unknown error")
  ++ py "</p></body></html>".

(** [_CallbackHandler.do_GET] on a request whose [urlparse] path is [path]. *)
Definition do_GET (srv : server) (path : pystr) (q : query) : server * response :=
  if negb (str_eqb path (py "/callback")) then (srv, R404)
  else
    let code := param (py "code") q in
    let state := param (py "state") q in
    let error := param (py "error") q in
    let srv' :=
      if truthy error then set_oauth_error srv error
      else if negb (truthy code) then set_oauth_error srv (Some msg_no_code)
      else if negb (opt_str_eqb state (Some (expected_state srv)))
      then set_oauth_error srv (Some msg_csrf)
      else set_oauth_code srv code in
    (srv', R200 (if truthy (oauth_code srv') then page_ok
                 else page_fail (oauth_error srv'))).

(** The outcome of a callback as the spec orders its cases. *)
Inductive outcome :=
| OError (e : pystr)
| OCode (c : pystr).

Definition spec_outcome (expected : pystr) (q : query) : outcome :=
  match param (py "error") q with
  | Some e => OError e
  | None =>
      match param (py "code") q with
      | None => OError msg_no_code
      | Some c =>
          match param (py "state") q with
          | Some s => if str_eqb s expected then OCode c else OError msg_csrf
          | None => OError msg_csrf
          end
      end
  end.

Definition record_outcome (srv : server) (o : outcome) : server :=
  match o with
  | OError e => set_oauth_error srv (Some e)
  | OCode c => set_oauth_code srv (Some c)
  end.

End Callback.

(** ** The OAuth client session ([NexusOAuthClient]) and its worker *)
Module Session.
Import Callback.

(** [NexusOAuthClient]'s attributes.  [c_server] says whether
    [self._server] is set; [c_listener] is the [_OAuthHTTPServer] object
    created by [start()], shared with the worker thread.  [c_exchanges]
    logs the calls to [exchange_code_for_tokens] the worker issues. *)
Record client := mkClient {
  c_tokens : option pyval;
  c_error : option pyval;
  c_verifier : pystr;
  c_state : pystr;
  c_server : bool;
  c_done : bool;
  c_listener : option server;
  c_exchanges : list (pystr * pystr) }.

(** [NexusOAuthClient()] *)
Definition init_client : client := mkClient None None [] [] false false None [].

Definition set_done (c : client) : client :=
  mkClient (c_tokens c) (c_error c) (c_verifier c) (c_state c) (c_server c)
           true (c_listener c) (c_exchanges c).

Definition set_error (c : client) (e : option pyval) : client :=
  mkClient (c_tokens c) e (c_verifier c) (c_state c) (c_server c)
           (c_done c) (c_listener c) (c_exchanges c).

Definition set_tokens (c : client) (t : option pyval) : client :=
  mkClient t (c_error c) (c_verifier c) (c_state c) (c_server c)
           (c_done c) (c_listener c) (c_exchanges c).

Definition set_listener (c : client) (l : option server) : client :=
  mkClient (c_tokens c) (c_error c) (c_verifier c) (c_state c) (c_server c)
           (c_done c) l (c_exchanges c).

Definition clear_server (c : client) : client :=
  mkClient (c_tokens c) (c_error c) (c_verifier c) (c_state c) false
           (c_done c) (c_listener c) (c_exchanges c).

Definition log_exchange (c : client) (e : pystr * pystr) : client :=
  mkClient (c_tokens c) (c_error c) (c_verifier c) (c_state c) (c_server c)
           (c_done c) (c_listener c) (c_exchanges c ++ [e]).

(** [start()], given the fresh verifier and [uuid4] state, whether binding
    127.0.0.1:9876 succeeds, and the [OSError] text when it does not.
    Opening the browser has no effect on the session state. *)
Definition start (verifier state : pystr) (port_free : bool) (oserr : pystr)
    (c : client) : client :=
  let c1 := mkClient None None verifier state (c_server c) false
                     (c_listener c) (c_exchanges c) in
  if port_free then
    mkClient None None verifier state true false (Some (new_server state))
             (c_exchanges c)
  else
    set_error c1 (Some (PStr (py "Could not start callback server on port 9876: " ++ oserr))).

(** What [stop()] and [BaseServer.shutdown()] do: return, or wait forever. *)
Inductive returns (A : Type) :=
| Returns (a : A)
| Blocks.
Arguments Returns {A} a.
Arguments Blocks {A}.

(** [BaseServer.shutdown()]: sets [__shutdown_request] and waits on
    [__is_shut_down], which only [serve_forever()] sets. *)
Definition shutdown (s : server) : returns server :=
  if is_shut_down s then Returns s else Blocks.

(** [stop()]; the [try/except Exception] does not catch a wait. *)
Definition stop (c : client) : returns client :=
  let c1 := set_done c in
  if c_server c1 then
    match c_listener c1 with
    | Some s =>
        match shutdown s with
        | Returns _ => Returns (clear_server c1)
        | Blocks => Blocks
        end
    | None => Returns (clear_server c1)
    end
  else Returns c1.

(** Events the worker observes, in the order they happen: the caller's
    [stop()] setting [_done], a [handle_request()] timing out, or a GET
    request reaching the listener. *)
Inductive event :=
| EvStop
| EvTimeout
| EvRequest (path : pystr) (q : query).

Inductive wstep :=
| Continue (c : client)
| Break (c : client)
| Crash (c : client).

Inductive wresult :=
| WExited (c : client)
| WServing (c : client)
| WCrashed (c : client).

Definition wclient (r : wresult) : client :=
  match r with WExited c | WServing c | WCrashed c => c end.

Section Worker.

(** [exchange_code_for_tokens(code, verifier)], which always returns a dict. *)
Variable exchange : pystr -> pystr -> dict.
(** [extract_user_info(access_token)]; [None] when it raises. *)
Variable user_info : pyval -> option pyval.

(** [server.handle_request()] *)
Definition handle_one (ev : event) (c : client) : client :=
  match ev, c_listener c with
  | EvRequest p q, Some s => set_listener c (Some (fst (do_GET s p q)))
  | _, _ => c
  end.

(** The body of the [while] loop after [server.handle_request()]. *)
Definition after_request (c : client) : wstep :=
  match c_listener c with
  | None => Continue c
  | Some s =>
      if truthy (oauth_error s) then
        Break (set_done (set_error c (option_map PStr (oauth_error s))))
      else if truthy (oauth_code s) then
        let code := match oauth_code s with Some x => x | None => [] end in
        let tokens := exchange code (c_verifier c) in
        let c1 := log_exchange c (code, c_verifier c) in
        if dict_mem tokens (py "error") then
          Break (set_done (set_error c1 (dict_get tokens (py "error"))))
        else
          let atok := match dict_get tokens (py "access_token") with
                    | Some v => v | None => PStr [] end in
          match user_info atok with
          | Some u => Break (set_done (set_tokens c1 (Some (PDict (dict_set tokens (py "user") u)))))
          | None => Crash c1
          end
      else Continue c
  end.

Definition close_listener (c : client) : client :=
  set_listener c (option_map server_close (c_listener c)).

(** The [while not self._done.is_set()] loop from inside a
    [handle_request()] call; a [stop()] arriving meanwhile only sets the
    flag, checked once the call returns. *)
Fixpoint handle (evs : list event) (c : client) : wresult :=
  match evs with
  | [] => WServing c
  | EvStop :: rest => handle rest (set_done c)
  | ev :: rest =>
      match after_request (handle_one ev c) with
      | Break c2 => WExited (close_listener c2)
      | Crash c2 => WCrashed c2
      | Continue c2 => if c_done c2 then WExited (close_listener c2) else handle rest c2
      end
  end.

(** [_serve()] *)
Definition serve (evs : list event) (c : client) : wresult :=
  if c_server c then
    if c_done c then WExited (close_listener c) else handle evs c
  else WExited c.

End Worker.

(** Whether an event leaves the listener's outcome untouched: a timeout
    or a request for another path. *)
Definition quiet (ev : event) : bool :=
  match ev with
  | EvTimeout => true
  | EvRequest p _ => negb (str_eqb p (py "/callback"))
  | EvStop => false
  end.

(** The query of the first request for the callback route. *)
Fixpoint first_callback (evs : list event) : option query :=
  match evs with
  | [] => None
  | EvRequest p q :: r => if str_eqb p (py "/callback") then Some q else first_callback r
  | _ :: r => first_callback r
  end.

(** The listener's recorded outcome ([oauth_code], [oauth_error]). *)
Definition recorded (s : server) : option pystr * option pystr :=
  (oauth_code s, oauth_error s).

(** What a session started on a free port looks like once the worker has
    run: the listener holds at most one outcome, it is the outcome of the
    first callback request (or none), and the worker issued one exchange
    with the session's verifier exactly when that outcome is a code. *)
Definition single_outcome (st v : pystr) (evs : list event) (c : client) : Prop :=
  exists s, c_listener c = Some s /\
    ~ (truthy (oauth_code s) = true /\ truthy (oauth_error s) = true) /\
    (recorded s = (None, None) \/
     exists q, first_callback evs = Some q /\
               recorded s = recorded (fst (do_GET (new_server st) (py "/callback") q))) /\
    ((c_exchanges c = [] /\ truthy (oauth_code s) = false) \/
     exists code, oauth_code s = Some code /\ truthy (Some code) = true /\
                  c_exchanges c = [(code, v)]).

Definition is_serving (r : wresult) : bool :=
  match r with WServing _ => true | _ => false end.

End Session.

(** ** Unverified JWT payload decoding ([decode_jwt_payload], [extract_user_info]) *)
Module Jwt.
Open Scope Z_scope.

Fixpoint split_dot_aux (s : pystr) (cur : pystr) : list pystr :=
  match s with
  | [] => [rev cur]
  | c :: s' =>
      if c =? 46 then rev cur :: split_dot_aux s' [] else split_dot_aux s' (c :: cur)
  end.

(** [s.split(".")] *)
Definition split_dot (s : pystr) : list pystr := split_dot_aux s [].

(** [table_a2b_base64] of CPython's [binascii]: the value of a base64
    character, 64 or more for any other byte. *)
Definition b64_value (c : Z) : Z :=
  if (65 <=? c) && (c <=? 90) then c - 65
  else if (97 <=? c) && (c <=? 122) then c - 71
  else if (48 <=? c) && (c <=? 57) then c + 4
  else if c =? 43 then 62
  else if c =? 47 then 63
  else 255.

(** The decoding loop of [binascii.a2b_base64(s, strict_mode=False)]:
    non-alphabet bytes are skipped, a complete pad sequence ends the
    input, and leftover data characters raise [binascii.Error] ([None]). *)
Fixpoint a2b_loop (s : list Z) (quad_pos leftchar pads : Z) (out : list Z) : option (list Z) :=
  match s with
  | [] => if quad_pos =? 0 then Some (rev out) else None
  | c :: s' =>
      if c =? 61 then
        let pads' := if 2 <=? quad_pos then pads + 1 else pads in
        if (2 <=? quad_pos) && (4 <=? quad_pos + pads') then Some (rev out)
        else a2b_loop s' quad_pos leftchar pads' out
      else
        let v := b64_value c in
        if 64 <=? v then a2b_loop s' quad_pos leftchar pads out
        else if quad_pos =? 0 then a2b_loop s' 1 v 0 out
        else if quad_pos =? 1 then
          a2b_loop s' 2 (Z.land v 15)
                   0 (Z.land (Z.lor (Z.shiftl leftchar 2) (Z.shiftr v 4)) 255 :: out)
        else if quad_pos =? 2 then
          a2b_loop s' 3 (Z.land v 3)
                   0 (Z.land (Z.lor (Z.shiftl leftchar 4) (Z.shiftr v 2)) 255 :: out)
        else
          a2b_loop s' 0 0 0 (Z.land (Z.lor (Z.shiftl leftchar 6) v) 255 :: out)
  end.

Definition a2b_base64 (s : list Z) : option (list Z) := a2b_loop s 0 0 0 [].

(** [base64.urlsafe_b64decode(s)] for a [str]: a non-ASCII string raises
    [ValueError]; ['-'] and ['_'] are translated to ['+'] and ['/']. *)
Definition urlsafe_b64decode (s : pystr) : option (list Z) :=
  if forallb (fun c => (0 <=? c) && (c <? 128)) s then
    a2b_base64 (map (fun c => if c =? 45 then 43 else if c =? 95 then 47 else c) s)
  else None.

(** [_b64url_decode(s)]: [s += "=" * (4 - len(s) % 4)] then decode. *)
Definition b64url_decode (s : pystr) : option (list Z) :=
  let n := (4 - Z.of_nat (List.length s) mod 4) in
  urlsafe_b64decode (s ++ repeat 61 (Z.to_nat n)).

Record user := mkUser {
  u_name : pyval;
  is_premium : bool;
  is_supporter : bool;
  profile_url : pystr }.

(** [x in container] for a [str] [x]; [None] on [TypeError]. *)
Definition py_in (x : pystr) (container : pyval) : option bool :=
  match container with
  | PList l => Some (existsb (fun v => match v with PStr s => str_eqb s x | _ => false end) l)
  | PStr s => Some (containsb s x)
  | PDict d => Some (dict_mem d x)
  | _ => None
  end.

(** [d.get(k, default)] on a value that must be a dict ([None]: [AttributeError]). *)
Definition py_get (v : pyval) (k : pystr) (default : pyval) : option pyval :=
  match v with
  | PDict d => Some (match dict_get d k with Some x => x | None => default end)
  | _ => None
  end.

Section Decode.

(** [json.loads] applied to [bytes]; [None] when it raises. *)
Variable json_loads_bytes : list Z -> option pyval.

(** [decode_jwt_payload(token)]: every exception is caught. *)
Definition decode_jwt_payload (token : pystr) : pyval :=
  match split_dot token with
  | [_; p; _] =>
      match b64url_decode p with
      | Some payload =>
          match json_loads_bytes payload with
          | Some v => v
          | None => PDict []
          end
      | None => PDict []
      end
  | _ => PDict []
  end.

(** [extract_user_info(access_token)]; [None] when it raises. *)
Definition extract_user_info (access_token : pystr) : option user :=
  let payload := decode_jwt_payload access_token in
  match py_get payload (py "user") (PDict []) with
  | None => None
  | Some u =>
      match py_get u (py "membership_roles") (PList []) with
      | None => None
      | Some roles =>
          match py_get u (py "username") (PStr []) with
          | None => None
          | Some name =>
              let premium :=
                match py_in (py "premium") roles with
                | Some true => Some true
                | Some false => py_in (py "lifetimepremium") roles
                | None => None
                end in
              match premium, py_in (py "supporter") roles with
              | Some p, Some s => Some (mkUser name p s [])
              | _, _ => None
              end
          end
      end
  end.

Definition user_to_py (u : user) : pyval :=
  PDict [(py "name", u_name u); (py "is_premium", PBool (is_premium u));
         (py "is_supporter", PBool (is_supporter u)); (py "profile_url", PStr (profile_url u))].

(** The call [extract_user_info(tokens.get("access_token", ""))] in
    [_serve]: a non-[str] token fails at [token.split]. *)
Definition extract_user_info_py (v : pyval) : option pyval :=
  match v with
  | PStr t => option_map user_to_py (extract_user_info t)
  | _ => None
  end.

End Decode.
End Jwt.

(** ** Token exchange and refresh ([exchange_code_for_tokens], [refresh_access_token]) *)
Module TokenClient.
Open Scope Z_scope.

(** What [urllib.request.urlopen] gives for the token POST: a 2xx response
    body, an [HTTPError] with its status and the result of [e.read()]
    ([None] if that raises), or another exception with its [str]. *)
Inductive http_outcome :=
| HttpOk (body : list Z)
| HttpError (code : Z) (body : option (list Z))
| Failure (msg : pystr).

(** Exceptions the success path can raise. *)
Inductive pyexn :=
| UnicodeDecodeError
| JSONDecodeError
| AttributeError
| TypeError.

Definition is_cont (y : Z) : bool := (128 <=? y) && (y <=? 191).

(** [bytes.decode()] (strict UTF-8); [None] on [UnicodeDecodeError]. *)
Fixpoint utf8_decode (b : list Z) : option pystr :=
  match b with
  | [] => Some []
  | x :: r =>
      if x <? 128 then option_map (cons x) (utf8_decode r)
      else if (194 <=? x) && (x <=? 223) then
        match r with
        | y :: r' =>
            if is_cont y then option_map (cons ((x - 192) * 64 + (y - 128))) (utf8_decode r')
            else None
        | [] => None
        end
      else if (224 <=? x) && (x <=? 239) then
        match r with
        | y :: z :: r' =>
            if is_cont y && is_cont z && (negb (x =? 224) || (160 <=? y))
               && (negb (x =? 237) || (y <=? 159))
            then option_map (cons ((x - 224) * 4096 + (y - 128) * 64 + (z - 128)))
                            (utf8_decode r')
            else None
        | _ => None
        end
      else if (240 <=? x) && (x <=? 244) then
        match r with
        | y :: z :: w :: r' =>
            if is_cont y && is_cont z && is_cont w && (negb (x =? 240) || (144 <=? y))
               && (negb (x =? 244) || (y <=? 143))
            then option_map (cons ((x - 240) * 262144 + (y - 128) * 4096
                                   + (z - 128) * 64 + (w - 128)))
                            (utf8_decode r')
            else None
        | _ => None
        end
      else None
  end.

(** [int(time.time()) + x] for the value [x] of [data.get("expires_in", 3600)]. *)
Definition py_add_int (n : Z) (x : pyval) : option pyval :=
  match x with
  | PInt m => Some (PInt (n + m))
  | PBool b => Some (PInt (n + if b then 1 else 0))
  | _ => None
  end.

Definition CLIENT_ID : pystr := py "nexus_oauth_client".
Definition REDIRECT_URI : pystr := py "http://127.0.0.1:9876/callback".

(** The form fields [urlencode]d into the POST body. *)
Definition exchange_form (code verifier : pystr) : list (pystr * pystr) :=
  [(py "grant_type", py "authorization_code"); (py "client_id", CLIENT_ID);
   (py "redirect_uri", REDIRECT_URI); (py "code", code);
   (py "code_verifier", verifier); (py "scope", [])].

Definition refresh_form (refresh_token : pystr) : list (pystr * pystr) :=
  [(py "grant_type", py "refresh_token"); (py "client_id", CLIENT_ID);
   (py "refresh_token", refresh_token)].

Definition error_dict (m : pystr) : dict := [(py "error", PStr m)].

Definition revoked_msg : pystr := py "Token revoked or expired. Please re-authorize.".

Section Client.

(** The token endpoint, as seen through [urlopen(req, timeout=15)]. *)
Variable post : list (pystr * pystr) -> http_outcome.
(** [json.loads] on a [str]; [None] when it raises. *)
Variable json_loads : pystr -> option pyval.
(** [str(e)] of an exception. *)
Variable str_exn : pyexn -> pystr.
(** [int(time.time())] when the response is read. *)
Variable now : Z.

(** The [with urlopen(...) as resp:] block shared by both functions. *)
Definition read_tokens (body : list Z) : dict + pyexn :=
  match utf8_decode body with
  | None => inr UnicodeDecodeError
  | Some s =>
      match json_loads s with
      | None => inr JSONDecodeError
      | Some (PDict d) =>
          let ei := match dict_get d (py "expires_in") with
                    | Some v => v | None => PInt 3600 end in
          match py_add_int now ei with
          | Some v => inl (dict_set d (py "expires_at") v)
          | None => inr TypeError
          end
      | Some _ => inr AttributeError
      end
  end.

Definition exchange_code_for_tokens (code code_verifier : pystr) : dict :=
  match post (exchange_form code code_verifier) with
  | HttpOk body =>
      match read_tokens body with
      | inl data => data
      | inr e => error_dict (py "Token exchange failed: " ++ str_exn e)
      end
  | HttpError c b =>
      let err_body := match b with
                      | Some bs => match utf8_decode bs with Some s => s | None => [] end
                      | None => []
                      end in
      error_dict (py "Token exchange failed (HTTP " ++ str_of_Z c ++ py "): " ++ err_body)
  | Failure m => error_dict (py "Token exchange failed: " ++ m)
  end.

Definition refresh_access_token (refresh_token : pystr) : dict :=
  match post (refresh_form refresh_token) with
  | HttpOk body =>
      match read_tokens body with
      | inl data => data
      | inr e => error_dict (py "Token refresh failed: " ++ str_exn e)
      end
  | HttpError c _ =>
      if (400 <=? c) && (c <? 500) then error_dict revoked_msg
      else error_dict (py "Token refresh failed (HTTP " ++ str_of_Z c ++ py ")")
  | Failure m => error_dict (py "Token refresh failed: " ++ m)
  end.

End Client.

(** The dict a successful response yields: the parsed object [d0] with
    ["expires_at"] set to [now] plus its ["expires_in"] (an [int], or a
    [bool] counted as 0 or 1 by Python's [+]), or plus 3600 when absent. *)
Definition stamped (json_loads : pystr -> option pyval) (now : Z) (body : list Z) (d : dict) : Prop :=
  exists s d0, utf8_decode body = Some s /\ json_loads s = Some (PDict d0) /\
  ((dict_get d0 (py "expires_in") = None /\
    d = dict_set d0 (py "expires_at") (PInt (now + 3600))) \/
   (exists n, dict_get d0 (py "expires_in") = Some (PInt n) /\
    d = dict_set d0 (py "expires_at") (PInt (now + n))) \/
   (exists b, dict_get d0 (py "expires_in") = Some (PBool b) /\
    d = dict_set d0 (py "expires_at") (PInt (now + if b then 1 else 0)))).
End TokenClient.

(** ** PKCE parameters ([_generate_code_verifier], [_generate_code_challenge]) *)
Module Pkce.
Open Scope Z_scope.

(** *** SHA-256 ([hashlib.sha256(...).digest()]) on 32-bit words held in [Z] *)
Definition M32 : Z := 0xffffffff.
Definition add32 (a b : Z) : Z := Z.land (a + b) M32.
Definition rotr (x n : Z) : Z := Z.land (Z.lor (Z.shiftr x n) (Z.shiftl x (32 - n))) M32.
Definition ch (x y z : Z) : Z := Z.lxor (Z.land x y) (Z.land (Z.lxor x M32) z).
Definition maj (x y z : Z) : Z := Z.lxor (Z.lxor (Z.land x y) (Z.land x z)) (Z.land y z).
Definition bsig0 (x : Z) : Z := Z.lxor (Z.lxor (rotr x 2) (rotr x 13)) (rotr x 22).
Definition bsig1 (x : Z) : Z := Z.lxor (Z.lxor (rotr x 6) (rotr x 11)) (rotr x 25).
Definition ssig0 (x : Z) : Z := Z.lxor (Z.lxor (rotr x 7) (rotr x 18)) (Z.shiftr x 3).
Definition ssig1 (x : Z) : Z := Z.lxor (Z.lxor (rotr x 17) (rotr x 19)) (Z.shiftr x 10).

Definition K256 : list Z :=
  [1116352408; 1899447441; 3049323471; 3921009573; 961987163; 1508970993; 2453635748; 2870763221;
   3624381080; 310598401; 607225278; 1426881987; 1925078388; 2162078206; 2614888103; 3248222580;
   3835390401; 4022224774; 264347078; 604807628; 770255983; 1249150122; 1555081692; 1996064986;
   2554220882; 2821834349; 2952996808; 3210313671; 3336571891; 3584528711; 113926993; 338241895;
   666307205; 773529912; 1294757372; 1396182291; 1695183700; 1986661051; 2177026350; 2456956037;
   2730485921; 2820302411; 3259730800; 3345764771; 3516065817; 3600352804; 4094571909; 275423344;
   430227734; 506948616; 659060556; 883997877; 958139571; 1322822218; 1537002063; 1747873779;
   1955562222; 2024104815; 2227730452; 2361852424; 2428436474; 2756734187; 3204031479; 3329325298].

Definition H256 : list Z :=
  [1779033703; 3144134277; 1013904242; 2773480762; 1359893119; 2600822924; 528734635; 1541459225].

(** The [n] bytes of [x], most significant first. *)
Definition be_bytes (n : nat) (x : Z) : list Z :=
  map (fun i => Z.land (Z.shiftr x (8 * (Z.of_nat n - 1 - Z.of_nat i))) 255) (seq 0 n).

Definition sha_pad (m : list Z) : list Z :=
  let l := Z.of_nat (List.length m) in
  m ++ [128] ++ repeat 0 (Z.to_nat ((55 - l) mod 64)) ++ be_bytes 8 (8 * l).

Fixpoint be_words (b : list Z) : list Z :=
  match b with
  | x0 :: x1 :: x2 :: x3 :: r =>
      Z.lor (Z.shiftl x0 24) (Z.lor (Z.shiftl x1 16) (Z.lor (Z.shiftl x2 8) x3)) :: be_words r
  | _ => []
  end.

(** Message schedule, most recent word first. *)
Fixpoint schedule (fuel : nat) (rw : list Z) : list Z :=
  match fuel with
  | O => rw
  | S f =>
      let w := add32 (add32 (ssig1 (nth 1 rw 0)) (nth 6 rw 0))
                     (add32 (ssig0 (nth 14 rw 0)) (nth 15 rw 0)) in
      schedule f (w :: rw)
  end.

Definition sha_round (st : list Z) (kw : Z * Z) : list Z :=
  match st with
  | [a; b; c; d; e; f; g; h] =>
      let t1 := add32 (add32 (add32 h (bsig1 e)) (add32 (ch e f g) (fst kw))) (snd kw) in
      let t2 := add32 (bsig0 a) (maj a b c) in
      [add32 t1 t2; a; b; c; add32 d t1; e; f; g]
  | _ => st
  end.

Definition compress (hs : list Z) (block : list Z) : list Z :=
  let ws := rev (schedule 48 (rev (be_words block))) in
  let st := fold_left sha_round (combine K256 ws) hs in
  map (fun p => add32 (fst p) (snd p)) (combine hs st).

Fixpoint sha_blocks (fuel : nat) (m : list Z) (hs : list Z) : list Z :=
  match fuel with
  | O => hs
  | S f =>
      match m with
      | [] => hs
      | _ => sha_blocks f (skipn 64 m) (compress hs (firstn 64 m))
      end
  end.

Definition sha256 (m : list Z) : list Z :=
  let p := sha_pad m in
  flat_map (be_bytes 4) (sha_blocks (List.length p / 64) p H256).

(** *** Base64 ([binascii.b2a_base64] and the [base64] wrappers) *)
Definition std_alphabet : list Z :=
  py "ABCDEFGHIJKLMNOPQRSTUVWXYZabcdefghijklmnopqrstuvwxyz0123456789+/".

Definition b64char (i : Z) : Z := nth (Z.to_nat i) std_alphabet 0.

(** [base64.b64encode(bs)] *)
Fixpoint b64encode (bs : list Z) : list Z :=
  match bs with
  | a :: b :: c :: r =>
      b64char (Z.shiftr a 2)
      :: b64char (Z.lor (Z.shiftl (Z.land a 3) 4) (Z.shiftr b 4))
      :: b64char (Z.lor (Z.shiftl (Z.land b 15) 2) (Z.shiftr c 6))
      :: b64char (Z.land c 63) :: b64encode r
  | [a; b] =>
      [b64char (Z.shiftr a 2); b64char (Z.lor (Z.shiftl (Z.land a 3) 4) (Z.shiftr b 4));
       b64char (Z.shiftl (Z.land b 15) 2); 61]
  | [a] => [b64char (Z.shiftr a 2); b64char (Z.shiftl (Z.land a 3) 4); 61; 61]
  | [] => []
  end.

(** [base64.urlsafe_b64encode(bs)]: [b64encode] then ['+' -> '-'], ['/' -> '_']. *)
Definition urlsafe_tr (c : Z) : Z := if c =? 43 then 45 else if c =? 47 then 95 else c.

Definition urlsafe_b64encode (bs : list Z) : list Z := map urlsafe_tr (b64encode bs).

Fixpoint drop_eq (l : list Z) : list Z :=
  match l with
  | c :: r => if c =? 61 then drop_eq r else l
  | [] => []
  end.

(** [bs.rstrip(b"=")] *)
Definition rstrip_eq (l : list Z) : list Z := rev (drop_eq (rev l)).

(** [bs.decode("ascii")] and [s.encode("ascii")]: fail on a code >= 128. *)
Definition decode_ascii (l : list Z) : option pystr :=
  if forallb (fun c => (0 <=? c) && (c <? 128)) l then Some l else None.
Definition encode_ascii (s : pystr) : option (list Z) :=
  if forallb (fun c => (0 <=? c) && (c <? 128)) s then Some s else None.

(** [_generate_code_verifier()], given the 43 bytes of [os.urandom(43)]. *)
Definition _generate_code_verifier (rnd : list Z) : option pystr :=
  decode_ascii (rstrip_eq (urlsafe_b64encode rnd)).

(** [_generate_code_challenge(verifier)] *)
Definition _generate_code_challenge (verifier : pystr) : option pystr :=
  match encode_ascii verifier with
  | Some b => decode_ascii (rstrip_eq (urlsafe_b64encode (sha256 b)))
  | None => None
  end.

(** *** The spec's reading: base64url (RFC 4648 section 5) without padding *)
Definition url_alphabet : list Z :=
  py "ABCDEFGHIJKLMNOPQRSTUVWXYZabcdefghijklmnopqrstuvwxyz0123456789-_".

Definition urlchar (i : Z) : Z := nth (Z.to_nat i) url_alphabet 0.

Fixpoint base64url_nopad (bs : list Z) : list Z :=
  match bs with
  | a :: b :: c :: r =>
      urlchar (Z.shiftr a 2)
      :: urlchar (Z.lor (Z.shiftl (Z.land a 3) 4) (Z.shiftr b 4))
      :: urlchar (Z.lor (Z.shiftl (Z.land b 15) 2) (Z.shiftr c 6))
      :: urlchar (Z.land c 63) :: base64url_nopad r
  | [a; b] =>
      [urlchar (Z.shiftr a 2); urlchar (Z.lor (Z.shiftl (Z.land a 3) 4) (Z.shiftr b 4));
       urlchar (Z.shiftl (Z.land b 15) 2)]
  | [a] => [urlchar (Z.shiftr a 2); urlchar (Z.shiftl (Z.land a 3) 4)]
  | [] => []
  end.

Definition is_url_safe (c : Z) : bool := existsb (Z.eqb c) url_alphabet.

Definition is_byte (x : Z) : bool := (0 <=? x) && (x <? 256).

(** Length of the unpadded encoding of [n] bytes. *)
Fixpoint nopad_len (n : nat) : nat :=
  match n with
  | S (S (S m)) => 4 + nopad_len m
  | 2 => 3
  | 1 => 2
  | O => 0
  end%nat.

End Pkce.

(** ** The manual-key fallback ([nexus_sso.NexusSSOAuth]) *)
Module Sso.
Import Callback.

(** A [NexusSSOAuth] instance: its [_port], whether its [HTTPServer]
    is listening, [_api_key] (never written) and [_done]. *)
Record sso := mkSso {
  s_port : option Z;
  s_listening : bool;
  s_api_key : option pystr;
  s_done : bool }.

(** The heap of [NexusSSOAuth] objects, with the class attribute
    [_CallbackHandler.api_key] shared by all of them. *)
Record world := mkWorld {
  api_key : option pystr;
  insts : nat -> sso }.

Definition sso_init : sso := mkSso None false None false.

Definition upd (f : nat -> sso) (i : nat) (x : sso) : nat -> sso :=
  fun j => if Nat.eqb j i then x else f j.

(** [inst.start_callback_server()] on instance [i], [_find_free_port()]
    having returned [port]. *)
Definition start_callback_server (i : nat) (port : Z) (w : world) : world * Z :=
  let x := insts w i in
  (mkWorld None (upd (insts w) i (mkSso (Some port) true (s_api_key x) (s_done x))), port).

(** [_CallbackHandler.do_GET] of [nexus_sso]: the response status. *)
Definition handler_get (q : query) (w : world) : world * Z :=
  let key := param (py "api_key") q in
  if truthy key then (mkWorld key (insts w), 200%Z) else (w, 400%Z).

(** A GET with query [q] sent to the listener of instance [i]: it is
    handled only while that instance's [_serve] loop runs
    ([while not self._done.is_set()]) on an open server; otherwise no
    [handle_request()] answers it. *)
Definition request (i : nat) (q : query) (w : world) : world * option Z :=
  if s_listening (insts w i) && negb (s_done (insts w i)) then
    let (w', st) := handler_get q w in (w', Some st)
  else (w, None).
(** [inst.poll_for_key()] *)
Definition poll_for_key (i : nat) (w : world) : option pystr := api_key w.

(** [inst.stop()] *)
Definition stop (i : nat) (w : world) : world :=
  let x := insts w i in
  mkWorld (api_key w) (upd (insts w) i (mkSso (s_port x) false (s_api_key x) true)).

End Sso.

(** The thread [_serve] started by [start_callback_server()] on instance
    [i]: [while not self._done.is_set(): self._server.handle_request()].
    Each event is what ends one [handle_request()] call: a GET with query
    [q], or [stop()] closing the server under it. *)
Module SsoLoop.
Import Callback Sso.

Inductive sso_event :=
| SReq (q : query)
| SStop.

Fixpoint sso_serve (i : nat) (evs : list sso_event) (w : world) : world * list Z :=
  match evs with
  | [] => (w, [])
  | ev :: rest =>
      if s_done (insts w i) then (w, [])
      else
        match ev with
        | SStop => sso_serve i rest (stop i w)
        | SReq q =>
            let (w1, st) := handler_get q w in
            let (w2, sts) := sso_serve i rest w1 in
            (w2, st :: sts)
        end
  end.

End SsoLoop.

(** ** The caller: [NexusAuthDialog] of [app/ui/nexus_widget.py] *)
Module Dialog.
Import Session.

(** Python truthiness of a JSON-shaped value. *)
Definition pv_truthy (v : pyval) : bool :=
  match v with
  | PNone => false
  | PBool b => b
  | PInt n => negb (Z.eqb n 0)
  | PStr s => negb (str_eqb s [])
  | PList l => match l with [] => false | _ => true end
  | PDict d => match d with [] => false | _ => true end
  end.

(** Truthiness of an attribute that is [None] or a value. *)
Definition opt_truthy (o : option pyval) : bool :=
  match o with Some v => pv_truthy v | None => false end.

(** What [_status_lbl] shows: hidden, the waiting text, or one of the two
    error texts with the error value formatted into it. *)
Inductive status :=
| SHidden
| SWaiting
| SFailedStart (err : pyval)
| SAuthFailed (err : pyval).

(** The dialog's state: [_oauth_client], whether [_poll_timer] is set,
    [tokens], the status label, whether [_auth_btn] is enabled, and the
    result of the dialog ([accept()]: [Some true], [reject()]: [Some false]). *)
Record dialog := mkDialog {
  d_client : option client;
  d_timer : bool;
  d_tokens : option pyval;
  d_status : status;
  d_button : bool;
  d_result : option bool }.

(** [NexusAuthDialog()] *)
Definition dialog_init : dialog := mkDialog None false None SHidden true None.

Definition set_client (d : dialog) (c : option client) : dialog :=
  mkDialog c (d_timer d) (d_tokens d) (d_status d) (d_button d) (d_result d).

Definition set_timer (d : dialog) (t : bool) : dialog :=
  mkDialog (d_client d) t (d_tokens d) (d_status d) (d_button d) (d_result d).

(** [_on_auth_start()]: [start()] on a fresh [NexusOAuthClient], with the
    same inputs as [start]; then the startup error check. *)
Definition on_auth_start (verifier state : pystr) (port_free : bool) (oserr : pystr)
    (d : dialog) : dialog :=
  let c := start verifier state port_free oserr init_client in
  if opt_truthy (c_error c) then
    mkDialog None (d_timer d) (d_tokens d)
             (SFailedStart (match c_error c with Some e => e | None => PNone end))
             true (d_result d)
  else mkDialog (Some c) true (d_tokens d) SWaiting false (d_result d).

(** [_stop_oauth()] *)
Definition stop_oauth (d : dialog) : returns dialog :=
  let d1 := set_timer d false in
  match d_client d1 with
  | Some c =>
      match stop c with
      | Returns _ => Returns (set_client d1 None)
      | Blocks => Blocks
      end
  | None => Returns d1
  end.

Definition then_ (r : returns dialog) (f : dialog -> dialog) : returns dialog :=
  match r with Returns d => Returns (f d) | Blocks => Blocks end.

(** [_poll_oauth()], the client's attributes being as the worker left them. *)
Definition poll_oauth (d : dialog) : returns dialog :=
  match d_client d with
  | None => Returns d
  | Some c =>
      if opt_truthy (c_tokens c) then
        then_ (stop_oauth d) (fun d1 =>
          mkDialog (d_client d1) (d_timer d1) (c_tokens c) (d_status d1) (d_button d1) (Some true))
      else if opt_truthy (c_error c) then
        then_ (stop_oauth d) (fun d1 =>
          mkDialog (d_client d1) (d_timer d1) (d_tokens d1)
                   (SAuthFailed (match c_error c with Some e => e | None => PNone end))
                   true (d_result d1))
      else Returns d
  end.

(** [_on_cancel()] *)
Definition on_cancel (d : dialog) : returns dialog :=
  then_ (stop_oauth d) (fun d1 =>
    mkDialog (d_client d1) (d_timer d1) (d_tokens d1) (d_status d1) (d_button d1) (Some false)).

(** The worker thread having run on the dialog's client. *)
Definition worker_ran ex ui (evs : list event) (d : dialog) : dialog :=
  match d_client d with
  | Some c => set_client d (Some (wclient (serve ex ui evs c)))
  | None => d
  end.

End Dialog.

(** ** The caller: [NexusWidget._on_token_refreshed] *)
Module Widget.
Import TokenClient Jwt Dialog.

(** The calls the handler makes on the [ConfigManager] and the
    [auth_changed] signal it emits; [_refresh()] only redraws from the
    configuration and the [print] only logs. *)
Inductive action :=
| ClearAuth
| SetTokens (d : dict)
| SetUserInfo (u : pyval)
| AuthChanged (token : pyval).

Section Handler.

Variable json_loads_bytes : list Z -> option pyval.

(** [_on_token_refreshed(result)]: the calls made, and whether the slot
    ended by raising. *)
Definition on_token_refreshed (result : dict) : list action * bool :=
  if dict_mem result (py "error") then ([ClearAuth; AuthChanged (PStr [])], false)
  else
    let atok := match dict_get result (py "access_token") with
                | Some v => v | None => PStr [] end in
    match extract_user_info_py json_loads_bytes atok with
    | None => ([SetTokens result], true)
    | Some ui =>
        match py_get ui (py "name") PNone with
        | Some n => if pv_truthy n then ([SetTokens result; SetUserInfo ui], false)
                    else ([SetTokens result], false)
        | None => ([SetTokens result], true)
        end
    end.

End Handler.

End Widget.

(** * Facts about the embedding *)

Module PyFacts.

Lemma str_eqb_refl (s : pystr) : str_eqb s s = true.
Proof. induction s as [|x s IH]; simpl; [reflexivity|]. now rewrite Z.eqb_refl. Qed.

Lemma str_eqb_eq (a b : pystr) : str_eqb a b = true <-> a = b.
Proof.
  split; [|intros ->; apply str_eqb_refl].
  revert b; induction a as [|x a IH]; intros [|y b]; simpl; try discriminate; auto.
  intros H; apply andb_true_iff in H as [H1 H2].
  apply Z.eqb_eq in H1; subst; f_equal; auto.
Qed.

Lemma dict_get_set_eq (d : dict) k v : dict_get (dict_set d k v) k = Some v.
Proof.
  induction d as [|[k' v'] d IH]; simpl.
  - now rewrite str_eqb_refl.
  - destruct (str_eqb k' k) eqn:E; simpl; rewrite ?E; auto.
Qed.

End PyFacts.
Import PyFacts.

Module CallbackFacts.
Import Callback.

Lemma param_nonblank k q v : param k q = Some v -> v <> [].
Proof.
  induction q as [|[n w] q IH]; simpl; [discriminate|].
  destruct (str_eqb n k && negb (str_eqb w [])) eqn:E; auto.
  intros [= <-] ->. apply andb_true_iff in E as [_ E]. discriminate.
Qed.

Lemma truthy_param k q : truthy (param k q) = match param k q with Some _ => true | None => false end.
Proof.
  destruct (param k q) as [v|] eqn:E; simpl; auto.
  apply param_nonblank in E. destruct v; [congruence|reflexivity].
Qed.

End CallbackFacts.
Import CallbackFacts.

Module Tests.
Import Pkce Jwt.
Open Scope Z_scope.
Example sha_abc : sha256 (py "abc") = [186; 120; 22; 191; 143; 1; 207; 234; 65; 65; 64; 222; 93; 174; 34; 35; 176; 3; 97; 163; 150; 23; 122; 156; 180; 16; 255; 97; 242; 0; 21; 173].
Proof. vm_compute. reflexivity. Qed.
Example sha_a100 : sha256 (repeat 97 100) = [40; 22; 89; 120; 136; 228; 160; 211; 163; 107; 130; 184; 51; 22; 171; 50; 104; 14; 184; 240; 15; 140; 211; 185; 4; 214; 129; 36; 109; 40; 90; 14].
Proof. vm_compute. reflexivity. Qed.
Example verifier_ex : _generate_code_verifier (map Z.of_nat (seq 200 43)) = Some (py "yMnKy8zNzs_Q0dLT1NXW19jZ2tvc3d7f4OHi4-Tl5ufo6err7O3u7_Dx8g").
Proof. vm_compute. reflexivity. Qed.
Example challenge_rfc : _generate_code_challenge (py "dBjftJeZ4CVP-mB92K27uhbUJU1p1r_wW1gFWFOEjXk") = Some (py "E9Melhoa2OwvFrEMTJguCHaoeK1t8URWbuGJSstw-cM").
Proof. vm_compute. reflexivity. Qed.
Example dec1 : urlsafe_b64decode (py "YQ====") = Some [97]. Proof. vm_compute. reflexivity. Qed.
Example dec2 : urlsafe_b64decode (py "YQ") = None. Proof. vm_compute. reflexivity. Qed.
Example dec3 : urlsafe_b64decode (py "YWJj====") = Some [97;98;99]. Proof. vm_compute. reflexivity. Qed.
Example dec4 : urlsafe_b64decode (py "Y===") = None. Proof. vm_compute. reflexivity. Qed.
Example dec5 : urlsafe_b64decode (py "YW=Jj") = Some [97;98;99]. Proof. vm_compute. reflexivity. Qed.
Example dec6 : urlsafe_b64decode (py "eyJ4Ijox!fQ==") = Some [123; 34; 120; 34; 58; 49; 125]. Proof. vm_compute. reflexivity. Qed.
Example split1 : split_dot (py "a..b") = [py "a"; []; py "b"]. Proof. reflexivity. Qed.
Example str1 : str_of_Z 400 = py "400". Proof. reflexivity. Qed.
Example str2 : str_of_Z 0 = py "0". Proof. reflexivity. Qed.
Example str3 : str_of_Z 1700000000 = py "1700000000". Proof. reflexivity. Qed.
End Tests.

(** * The callback listener and the session worker *)
Module ListenerClaims.
Import Callback Session.

Lemma callback_path : str_eqb (py "/callback") (py "/callback") = true.
Proof. reflexivity. Qed.

(** C1: on the callback route the recorded outcome follows the spec's
    precedence: an [error] parameter wins even with a [code]; else a
    missing [code] records "No authorization code received"; else a
    [state] different from the expected one records the CSRF error and
    drops the code; else the code is recorded. *)
Theorem do_GET_callback_precedence (srv : server) (q : query) :
  fst (do_GET srv (py "/callback") q) = record_outcome srv (spec_outcome (expected_state srv) q).
Proof.
  unfold do_GET, spec_outcome. cbv zeta. rewrite callback_path, !truthy_param.
  destruct (param (py "error") q) as [e|]; [reflexivity|].
  destruct (param (py "code") q) as [c|]; [|reflexivity].
  destruct (param (py "state") q) as [s|]; simpl; [|reflexivity].
  destruct (str_eqb s (expected_state srv)); reflexivity.
Qed.

Lemma do_GET_other_path (srv : server) p q :
  str_eqb p (py "/callback") = false -> do_GET srv p q = (srv, R404).
Proof. intros H. unfold do_GET. now rewrite H. Qed.

Lemma set_listener_same (c : client) l : c_listener c = l -> set_listener c l = c.
Proof. destruct c; simpl; intros ->; reflexivity. Qed.

(** A quiet event leaves a listener with no outcome, and the session, as they are. *)
Lemma handle_quiet ex ui (ev : event) (rest : list event) (c : client) (s : server) :
  quiet ev = true -> c_listener c = Some s -> oauth_code s = None -> oauth_error s = None ->
  c_done c = false ->
  handle ex ui (ev :: rest) c = handle ex ui rest c.
Proof.
  intros Hq Hl Hc He Hd.
  assert (H1 : handle_one ev c = c).
  { destruct ev as [| |p q]; simpl in Hq; try discriminate; simpl; auto.
    rewrite Hl. rewrite do_GET_other_path by (now apply negb_true_iff).
    now apply set_listener_same. }
  assert (H2 : after_request ex ui c = Continue c).
  { unfold after_request. rewrite Hl, Hc, He. reflexivity. }
  destruct ev as [| |p q]; simpl in Hq; try discriminate; cbn [handle];
    rewrite H1, H2, Hd; reflexivity.
Qed.

Lemma handle_quiet_app ex ui (pre rest : list event) (c : client) (s : server) :
  forallb quiet pre = true -> c_listener c = Some s -> oauth_code s = None ->
  oauth_error s = None -> c_done c = false ->
  handle ex ui (pre ++ rest) c = handle ex ui rest c.
Proof.
  induction pre as [|ev pre IH]; intros Hq Hl Hc He Hd; [reflexivity|].
  cbn [app forallb] in *. apply andb_true_iff in Hq as [Hq1 Hq2].
  rewrite (handle_quiet ex ui ev (pre ++ rest) c s); auto.
Qed.

Lemma truthy_msg_csrf : truthy (Some msg_csrf) = true.
Proof. reflexivity. Qed.

Lemma truthy_msg_no_code : truthy (Some msg_no_code) = true.
Proof. reflexivity. Qed.

(** C2: with expected state [S1] and received state [S2 <> S1], a
    callback carrying a code (and no [error]) makes the worker record the
    CSRF error and stop without ever calling the token exchange. *)
Theorem csrf_mismatch_never_exchanges ex ui (S1 S2 code v oserr : pystr) (q : query)
    (pre rest : list event) :
  S1 <> S2 ->
  param (py "error") q = None -> param (py "code") q = Some code ->
  param (py "state") q = Some S2 ->
  forallb quiet pre = true ->
  let r := serve ex ui (pre ++ EvRequest (py "/callback") q :: rest)
                 (start v S1 true oserr init_client) in
  r = WExited (wclient r) /\ c_exchanges (wclient r) = [] /\
  c_error (wclient r) = Some (PStr msg_csrf).
Proof.
  intros Hne He Hc Hs Hq r. subst r.
  unfold serve, start; cbn [c_server c_done].
  rewrite (handle_quiet_app ex ui pre _ _ (new_server S1)) by (reflexivity || exact Hq).
  cbn [handle].
  assert (Hg : fst (do_GET (new_server S1) (py "/callback") q)
               = set_oauth_error (new_server S1) (Some msg_csrf)).
  { rewrite do_GET_callback_precedence. unfold spec_outcome; simpl expected_state.
    rewrite He, Hc, Hs.
    destruct (str_eqb S2 S1) eqn:E; [apply str_eqb_eq in E; congruence|reflexivity]. }
  unfold handle_one; cbn [c_listener]. rewrite Hg.
  unfold after_request, set_listener; cbn [c_listener oauth_error set_oauth_error].
  rewrite truthy_msg_csrf.
  repeat split; reflexivity.
Qed.


Lemma truthy_some (e : pystr) : e <> [] -> truthy (Some e) = true.
Proof. destruct e; [congruence|reflexivity]. Qed.

Lemma spec_outcome_nonblank x q :
  match spec_outcome x q with OError e | OCode e => e <> [] end.
Proof.
  unfold spec_outcome.
  destruct (param (py "error") q) as [e|] eqn:E; [now apply param_nonblank in E|].
  destruct (param (py "code") q) as [c|] eqn:C; [|discriminate].
  destruct (param (py "state") q) as [s'|]; [|discriminate].
  destruct (str_eqb s' x); [now apply param_nonblank in C|discriminate].
Qed.

(** Every request for the callback route records exactly one outcome on a
    listener that holds none. *)
Lemma callback_terminal (s : server) q :
  oauth_code s = None -> oauth_error s = None ->
  let s1 := fst (do_GET s (py "/callback") q) in
  (truthy (oauth_error s1) = true /\ oauth_code s1 = None) \/
  (oauth_error s1 = None /\ exists code, oauth_code s1 = Some code /\ truthy (Some code) = true).
Proof.
  intros Hc He s1. subst s1. rewrite do_GET_callback_precedence.
  pose proof (spec_outcome_nonblank (expected_state s) q) as N.
  destruct (spec_outcome (expected_state s) q) as [e|c]; simpl.
  - left. split; [now apply truthy_some|exact Hc].
  - right. split; [exact He|]. exists c. split; [reflexivity|now apply truthy_some].
Qed.

Lemma after_request_error ex ui (c : client) (s1 : server) :
  c_listener c = Some s1 -> truthy (oauth_error s1) = true ->
  after_request ex ui c = Break (set_done (set_error c (option_map PStr (oauth_error s1)))).
Proof. intros Hl He. unfold after_request. now rewrite Hl, He. Qed.

Lemma after_request_code ex ui (c : client) (s1 : server) code :
  c_listener c = Some s1 -> oauth_error s1 = None -> oauth_code s1 = Some code ->
  truthy (Some code) = true ->
  exists c2, (after_request ex ui c = Break c2 \/ after_request ex ui c = Crash c2) /\
             c_listener c2 = Some s1 /\ c_exchanges c2 = c_exchanges c ++ [(code, c_verifier c)].
Proof.
  intros Hl He Hc Ht. unfold after_request. rewrite Hl, He, Hc, Ht. cbn [truthy].
  destruct (dict_mem _ _).
  - eexists. split; [left; reflexivity|]. destruct c; simpl in *; split; [exact Hl|reflexivity].
  - destruct (ui _).
    + eexists. split; [left; reflexivity|]. destruct c; simpl in *; split; [exact Hl|reflexivity].
    + eexists. split; [right; reflexivity|]. destruct c; simpl in *; split; [exact Hl|reflexivity].
Qed.

Lemma recorded_close (s : server) : recorded (server_close s) = recorded s.
Proof. reflexivity. Qed.

Lemma handle_single_outcome ex ui (st v : pystr) (evs : list event) (c : client) :
  c_listener c = Some (new_server st) -> c_exchanges c = [] -> c_verifier c = v ->
  single_outcome st v evs (wclient (handle ex ui evs c)) /\
  (first_callback evs <> None -> is_serving (handle ex ui evs c) = false).
Proof.
  revert c. induction evs as [|ev rest IH]; intros c Hl Hx Hv.
  - split; [|simpl; congruence].
    exists (new_server st). cbn [wclient]. split; [exact Hl|].
    split; [intros [H _]; discriminate|].
    split; [left; reflexivity|]. left; split; [exact Hx|reflexivity].
  - assert (Hfresh : forall c', c_listener c' = Some (new_server st) -> c_exchanges c' = [] ->
              single_outcome st v (ev :: rest) (close_listener c')).
    { intros c' H1 H2. exists (server_close (new_server st)).
      unfold close_listener, set_listener. rewrite H1. cbn [c_listener c_exchanges option_map].
      split; [reflexivity|]. split; [intros [H _]; discriminate|].
      split; [left; reflexivity|]. left; split; [exact H2|reflexivity]. }
    assert (Hquiet : quiet ev = true -> handle_one ev c = c /\ first_callback (ev :: rest) = first_callback rest).
    { intros Hq. destruct ev as [| |p q]; simpl in Hq; try discriminate.
      - split; reflexivity.
      - apply negb_true_iff in Hq. split.
        + unfold handle_one. rewrite Hl, do_GET_other_path by exact Hq. now apply set_listener_same.
        + simpl. now rewrite Hq. }
    assert (Hcont : after_request ex ui c = Continue c).
    { unfold after_request. rewrite Hl. reflexivity. }
    destruct (quiet ev) eqn:Hq.
    + destruct (Hquiet eq_refl) as [H1 H2].
      assert (Hh : handle ex ui (ev :: rest) c
                   = if c_done c then WExited (close_listener c) else handle ex ui rest c).
      { destruct ev as [| |p q]; [simpl in Hq; discriminate| |];
          cbn [handle]; rewrite H1, Hcont; reflexivity. }
      rewrite Hh. destruct (c_done c).
      * split; [apply Hfresh; auto|intros _; reflexivity].
      * destruct (IH c Hl Hx Hv) as [[s [A [B [C D]]]] E]. split.
        -- exists s. split; [exact A|]. split; [exact B|]. split; [|exact D].
           rewrite H2. exact C.
        -- intros N. apply E. rewrite <- H2. exact N.
    + destruct ev as [| |p q].
      * cbn [handle first_callback].
        destruct (IH (set_done c)) as [IH1 IH2]; destruct c; simpl in *; auto.
      * discriminate.
      * simpl in Hq. apply negb_false_iff in Hq. apply str_eqb_eq in Hq. subst p.
        cbn [handle]. unfold handle_one. rewrite !Hl.
        assert (Hf : first_callback (EvRequest (py "/callback") q :: rest) = Some q).
        { cbn [first_callback]. now rewrite callback_path. }
        set (s1 := fst (do_GET (new_server st) (py "/callback") q)).
        assert (Hl1 : c_listener (set_listener c (Some s1)) = Some s1) by reflexivity.
        destruct (callback_terminal (new_server st) q eq_refl eq_refl) as [[He Hc]|[He [code [Hc Ht]]]];
          fold s1 in He, Hc.
        -- rewrite (after_request_error ex ui _ s1 Hl1 He). split; [|intros _; reflexivity].
           exists (server_close s1). cbn. split; [reflexivity|]. split.
           { rewrite Hc. intros [H _]; discriminate. }
           split; [right; exists q; split; [exact Hf|reflexivity]|].
           left. split; [destruct c; simpl in *; exact Hx|]. rewrite Hc. reflexivity.
        -- destruct (after_request_code ex ui _ s1 code Hl1 He Hc Ht) as [c2 [E [L X]]].
           assert (Hx2 : c_exchanges c2 = [(code, v)]).
           { rewrite X. destruct c; simpl in *; subst; reflexivity. }
           destruct E as [E|E]; rewrite E; (split; [|intros _; reflexivity]).
           ++ exists (server_close s1). unfold close_listener, set_listener. rewrite L.
              cbn [wclient c_listener c_exchanges option_map server_close oauth_code oauth_error].
              split; [reflexivity|]. split; [rewrite He; intros [_ H]; discriminate|].
              split; [right; exists q; split; [exact Hf|reflexivity]|].
              right; exists code; split; [exact Hc|]; split; [exact Ht|].
              destruct c2; simpl in *; exact Hx2.
           ++ exists s1. cbn [wclient]. split; [exact L|].
              split; [rewrite He; intros [_ H]; discriminate|].
              split; [right; exists q; split; [exact Hf|reflexivity]|].
              right; exists code; split; [exact Hc|]; split; [exact Ht|exact Hx2].
Qed.


(** C4 (as the code has it): in a session started on a free port, whatever
    the worker observes, the listener holds at most one outcome (never a
    code and an error together); it is the outcome of the first callback
    request, later requests are never handled; and the worker has issued
    at most one exchange, with the session's verifier, exactly when that
    outcome is a code.  Once a callback request has been seen the worker
    is no longer serving. *)
Theorem session_single_terminal_outcome ex ui (v st oserr : pystr) (evs : list event) :
  let r := serve ex ui evs (start v st true oserr init_client) in
  single_outcome st v evs (wclient r) /\
  (first_callback evs <> None -> is_serving r = false).
Proof.
  intros r. subst r. unfold serve, start. cbn [c_server c_done].
  apply handle_single_outcome; reflexivity.
Qed.

(** C4 fails as stated: a callback carrying [error=access_denied] ends the
    session with no exchange request at all. *)
Lemma session_error_callback_no_exchange :
  c_exchanges (wclient (serve (fun _ _ => []) (fun _ => None)
                              [EvRequest (py "/callback") [(py "error", py "access_denied")]]
                              (start (py "verifier") (py "state") true [] init_client)))
  = [].
Proof. vm_compute. reflexivity. Qed.

Lemma serve_keeps_listener ex ui (evs : list event) (c : client) (s : server) :
  c_listener c = Some s -> is_shut_down s = false ->
  exists s', c_listener (wclient (handle ex ui evs c)) = Some s' /\ is_shut_down s' = false /\
             c_server (wclient (handle ex ui evs c)) = c_server c.
Proof.
  revert c s. induction evs as [|ev rest IH]; intros c s Hl Hs.
  - exists s. auto.
  - assert (Hone : exists s1, c_listener (handle_one ev c) = Some s1 /\ is_shut_down s1 = false /\
                              c_server (handle_one ev c) = c_server c).
    { destruct ev as [| |p q]; simpl; rewrite ?Hl; eauto.
      unfold do_GET. destruct (negb _); [now exists s|].
      eexists; split; [reflexivity|]. split; [|reflexivity]. simpl.
      destruct (truthy _); [exact Hs|]. destruct (negb _); [exact Hs|].
      destruct (negb _); exact Hs. }
    destruct Hone as [s1 [L1 [S1 C1]]].
    assert (Hafter : forall w, (after_request ex ui (handle_one ev c) = Continue w \/
                                after_request ex ui (handle_one ev c) = Break w \/
                                after_request ex ui (handle_one ev c) = Crash w) ->
                     c_listener w = Some s1 /\ c_server w = c_server c).
    { intros w Hw. revert Hw. unfold after_request. rewrite L1.
      destruct (truthy (oauth_error s1)).
      { intros [H|[H|H]]; inversion H; subst; simpl; auto. }
      destruct (truthy (oauth_code s1)); [|intros [H|[H|H]]; inversion H; subst; auto].
      destruct (dict_mem _ _); [intros [H|[H|H]]; inversion H; subst; simpl; auto|].
      destruct (ui _); intros [H|[H|H]]; inversion H; subst; simpl; auto. }
    destruct ev as [| |p q].
    + cbn [handle]. apply (IH (set_done c) s); auto.
    + cbn [handle]. destruct (after_request ex ui (handle_one EvTimeout c)) as [w|w|w] eqn:E.
      * destruct (Hafter w (or_introl eq_refl)) as [L C].
        destruct (c_done w).
        -- exists (server_close s1). unfold close_listener, set_listener; simpl; rewrite L. auto.
        -- destruct (IH w s1 L S1) as [s' [A [B D]]]. exists s'. rewrite D, C. auto.
      * destruct (Hafter w (or_intror (or_introl eq_refl))) as [L C].
        exists (server_close s1). unfold close_listener, set_listener; simpl; rewrite L. auto.
      * destruct (Hafter w (or_intror (or_intror eq_refl))) as [L C]. exists s1. auto.
    + cbn [handle]. destruct (after_request ex ui (handle_one (EvRequest p q) c)) as [w|w|w] eqn:E.
      * destruct (Hafter w (or_introl eq_refl)) as [L C].
        destruct (c_done w).
        -- exists (server_close s1). unfold close_listener, set_listener; simpl; rewrite L. auto.
        -- destruct (IH w s1 L S1) as [s' [A [B D]]]. exists s'. rewrite D, C. auto.
      * destruct (Hafter w (or_intror (or_introl eq_refl))) as [L C].
        exists (server_close s1). unfold close_listener, set_listener; simpl; rewrite L. auto.
      * destruct (Hafter w (or_intror (or_intror eq_refl))) as [L C]. exists s1. auto.
Qed.

Lemma stop_blocks_when_listening (c : client) (s : server) :
  c_server c = true -> c_listener c = Some s -> is_shut_down s = false -> stop c = Blocks.
Proof.
  intros H1 H2 H3. unfold stop, shutdown. destruct c; simpl in *. subst. now rewrite H3.
Qed.

(** C5 (code_bug): [stop()] on a client that never started returns, also
    twice in a row; but once [start()] has bound the listener, [stop()]
    waits forever in [BaseServer.shutdown()] (nothing ever sets
    [__is_shut_down], which only [serve_forever()] does), whether it comes
    right after [start()] or after any run of the worker. *)
Theorem stop_after_start_blocks ex ui (v st oserr : pystr) (evs : list event) :
  (exists c1 c2, stop init_client = Returns c1 /\ stop c1 = Returns c2) /\
  stop (start v st true oserr init_client) = Blocks /\
  stop (wclient (serve ex ui evs (start v st true oserr init_client))) = Blocks.
Proof.
  split; [eexists; eexists; split; reflexivity|].
  split; [now apply (stop_blocks_when_listening _ (new_server st))|].
  unfold serve, start. cbn [c_server c_done].
  destruct (serve_keeps_listener ex ui evs
              (mkClient None None v st true false (Some (new_server st)) []) (new_server st)
              eq_refl eq_refl) as [s' [A [B C]]].
  apply (stop_blocks_when_listening _ s'); auto.
Qed.

Lemma csrf_mismatch_never_exchanges_witness :
  let q := [(py "code", py "ABC123"); (py "state", py "s2")] in
  let r := serve (fun _ _ => []) (fun _ => None) ([EvTimeout] ++ EvRequest (py "/callback") q :: [])
                 (start (py "v") (py "s1") true [] init_client) in
  r = WExited (wclient r) /\ c_exchanges (wclient r) = [] /\
  c_error (wclient r) = Some (PStr msg_csrf).
Proof.
  intros q.
  apply (csrf_mismatch_never_exchanges (fun _ _ => []) (fun _ => None) (py "s1") (py "s2")
           (py "ABC123") (py "v") [] q [EvTimeout] []).
  - intros E. vm_compute in E. discriminate E.
  - vm_compute. reflexivity.
  - vm_compute. reflexivity.
  - vm_compute. reflexivity.
  - vm_compute. reflexivity.
Defined.

End ListenerClaims.

(** * PKCE *)
Module PkceClaims.
Import Pkce.
Open Scope Z_scope.

Definition sextet_ok (i : Z) : bool := (0 <=? i) && (i <? 64).

Definition byte_range : list Z := map Z.of_nat (seq 0 256).

Lemma byte_range_complete (a : Z) : is_byte a = true -> In a byte_range.
Proof.
  unfold is_byte, byte_range. intros H. apply andb_true_iff in H as [H1 H2].
  apply Z.leb_le in H1. apply Z.ltb_lt in H2.
  apply in_map_iff. exists (Z.to_nat a). split; [apply Z2Nat.id; lia|].
  apply in_seq. lia.
Qed.

Lemma byte_cases (P : Z -> bool) :
  forallb P byte_range = true -> forall a, is_byte a = true -> P a = true.
Proof.
  intros H a Ha. rewrite forallb_forall in H. apply H, byte_range_complete, Ha.
Qed.

Lemma byte_cases2 (P : Z -> Z -> bool) :
  forallb (fun a => forallb (P a) byte_range) byte_range = true ->
  forall a b, is_byte a = true -> is_byte b = true -> P a b = true.
Proof.
  intros H a b Ha Hb.
  apply (byte_cases (fun a => forallb (P a) byte_range)) in Ha; [|exact H].
  apply (byte_cases (P a)); assumption.
Qed.

Lemma sextet1 a : is_byte a = true -> sextet_ok (Z.shiftr a 2) = true.
Proof. apply (byte_cases (fun a => sextet_ok (Z.shiftr a 2))). vm_compute. reflexivity. Qed.

Lemma sextet2 a b : is_byte a = true -> is_byte b = true ->
  sextet_ok (Z.lor (Z.shiftl (Z.land a 3) 4) (Z.shiftr b 4)) = true.
Proof.
  apply (byte_cases2 (fun a b => sextet_ok (Z.lor (Z.shiftl (Z.land a 3) 4) (Z.shiftr b 4)))).
  vm_compute. reflexivity.
Qed.

Lemma sextet3 b c : is_byte b = true -> is_byte c = true ->
  sextet_ok (Z.lor (Z.shiftl (Z.land b 15) 2) (Z.shiftr c 6)) = true.
Proof.
  apply (byte_cases2 (fun b c => sextet_ok (Z.lor (Z.shiftl (Z.land b 15) 2) (Z.shiftr c 6)))).
  vm_compute. reflexivity.
Qed.

Lemma sextet4 c : is_byte c = true -> sextet_ok (Z.land c 63) = true.
Proof. apply (byte_cases (fun c => sextet_ok (Z.land c 63))). vm_compute. reflexivity. Qed.

Lemma sextet5 a : is_byte a = true -> sextet_ok (Z.shiftl (Z.land a 3) 4) = true.
Proof. apply (byte_cases (fun a => sextet_ok (Z.shiftl (Z.land a 3) 4))). vm_compute. reflexivity. Qed.

Lemma sextet6 b : is_byte b = true -> sextet_ok (Z.shiftl (Z.land b 15) 2) = true.
Proof. apply (byte_cases (fun b => sextet_ok (Z.shiftl (Z.land b 15) 2))). vm_compute. reflexivity. Qed.

(** What a character of the URL-safe alphabet is. *)
Definition url_char_ok (c : Z) : bool :=
  negb (c =? 61) && is_url_safe c && (0 <=? c) && (c <? 128).

Lemma char_ok (i : Z) : sextet_ok i = true ->
  urlsafe_tr (b64char i) = urlchar i /\ url_char_ok (urlchar i) = true.
Proof.
  intros H.
  assert (Hb : forallb (fun n => let i := Z.of_nat n in
                 Z.eqb (urlsafe_tr (b64char i)) (urlchar i) && url_char_ok (urlchar i))
                 (seq 0 64) = true) by (vm_compute; reflexivity).
  rewrite forallb_forall in Hb.
  unfold sextet_ok in H. apply andb_true_iff in H as [H1 H2].
  apply Z.leb_le in H1. apply Z.ltb_lt in H2.
  assert (Hin : In (Z.to_nat i) (seq 0 64)) by (apply in_seq; lia).
  specialize (Hb _ Hin). cbv zeta in Hb. rewrite Z2Nat.id in Hb by lia.
  apply andb_true_iff in Hb as [E F].
  split; [apply Z.eqb_eq, E|exact F].
Qed.

(** [urlsafe_b64encode] is the unpadded base64url encoding followed by
    its padding. *)
Lemma urlsafe_b64encode_split (n : nat) (bs : list Z) :
  (List.length bs <= n)%nat -> forallb is_byte bs = true ->
  exists k, urlsafe_b64encode bs = base64url_nopad bs ++ repeat 61 k /\
            forallb url_char_ok (base64url_nopad bs) = true /\
            List.length (base64url_nopad bs) = nopad_len (List.length bs).
Proof.
  revert bs. induction n as [|n IH]; intros bs Hl Hb.
  - destruct bs; [|simpl in Hl; lia]. exists O. auto.
  - destruct bs as [|a [|b [|c r]]]; cbn [forallb] in Hb.
    + exists O. auto.
    + rewrite andb_true_r in Hb. exists 2%nat.
      destruct (char_ok _ (sextet1 a Hb)) as [E1 F1].
      destruct (char_ok _ (sextet5 a Hb)) as [E2 F2].
      unfold urlsafe_b64encode. cbn [b64encode map base64url_nopad forallb List.length].
      rewrite E1, E2, F1, F2. repeat split; reflexivity.
    + rewrite andb_true_r in Hb. apply andb_true_iff in Hb as [Ha Hb]. exists 1%nat.
      destruct (char_ok _ (sextet1 a Ha)) as [E1 F1].
      destruct (char_ok _ (sextet2 a b Ha Hb)) as [E2 F2].
      destruct (char_ok _ (sextet6 b Hb)) as [E3 F3].
      unfold urlsafe_b64encode. cbn [b64encode map base64url_nopad forallb List.length].
      rewrite E1, E2, E3, F1, F2, F3. repeat split; reflexivity.
    + apply andb_true_iff in Hb as [Ha Hb]. apply andb_true_iff in Hb as [Hb Hc].
      apply andb_true_iff in Hc as [Hc Hr].
      destruct (IH r ltac:(simpl in Hl; lia) Hr) as [k [E [F L]]].
      exists k.
      destruct (char_ok _ (sextet1 a Ha)) as [E1 F1].
      destruct (char_ok _ (sextet2 a b Ha Hb)) as [E2 F2].
      destruct (char_ok _ (sextet3 b c Hb Hc)) as [E3 F3].
      destruct (char_ok _ (sextet4 c Hc)) as [E4 F4].
      unfold urlsafe_b64encode in *. cbn [b64encode map base64url_nopad app forallb List.length].
      rewrite E1, E2, E3, E4, E, F1, F2, F3, F4, F, L. auto.
Qed.

Lemma drop_eq_repeat (k : nat) (m : list Z) : drop_eq (repeat 61 k ++ m) = drop_eq m.
Proof. induction k; simpl; auto. Qed.

Lemma drop_eq_head (m : list Z) : forallb url_char_ok m = true -> drop_eq m = m.
Proof.
  destruct m as [|x m]; simpl; auto. intros H. apply andb_true_iff in H as [H _].
  unfold url_char_ok in H. destruct (x =? 61); [discriminate|reflexivity].
Qed.

Lemma forallb_rev {A} (f : A -> bool) (l : list A) : forallb f (rev l) = forallb f l.
Proof.
  induction l as [|x l IH]; simpl; auto.
  rewrite forallb_app, IH. simpl. now rewrite andb_true_r, andb_comm.
Qed.

(** Stripping the ['='] leaves exactly the unpadded encoding. *)
Lemma rstrip_padding (l : list Z) (k : nat) :
  forallb url_char_ok l = true -> rstrip_eq (l ++ repeat 61 k) = l.
Proof.
  intros H. unfold rstrip_eq. rewrite rev_app_distr, rev_repeat, drop_eq_repeat.
  rewrite drop_eq_head by (now rewrite forallb_rev). apply rev_involutive.
Qed.

Lemma decode_ascii_ok (l : list Z) : forallb url_char_ok l = true -> decode_ascii l = Some l.
Proof.
  intros H. unfold decode_ascii. replace (forallb _ l) with true; [reflexivity|].
  symmetry. rewrite forallb_forall in *. intros x Hx. specialize (H x Hx).
  unfold url_char_ok in H. apply andb_true_iff in H as [H H4]. apply andb_true_iff in H as [_ H3].
  now rewrite H3, H4.
Qed.

Lemma land_255_byte (x : Z) : is_byte (Z.land x 255) = true.
Proof.
  change 255 with (Z.ones 8). rewrite Z.land_ones by lia. unfold is_byte.
  pose proof (Z.mod_pos_bound x (2 ^ 8) ltac:(lia)). apply andb_true_iff; split; lia.
Qed.

Lemma sha256_bytes (m : list Z) : forallb is_byte (sha256 m) = true.
Proof.
  unfold sha256. apply forallb_forall. intros x Hx.
  apply in_flat_map in Hx as [w [_ Hw]]. unfold be_bytes in Hw.
  apply in_map_iff in Hw as [i [<- _]]. apply land_255_byte.
Qed.

Lemma generate_b64url (bs : list Z) :
  forallb is_byte bs = true ->
  decode_ascii (rstrip_eq (urlsafe_b64encode bs)) = Some (base64url_nopad bs) /\
  forallb url_char_ok (base64url_nopad bs) = true /\
  List.length (base64url_nopad bs) = nopad_len (List.length bs).
Proof.
  intros Hb. destruct (urlsafe_b64encode_split (List.length bs) bs (le_n _) Hb) as [k [E [F L]]].
  rewrite E, rstrip_padding by exact F. split; [now apply decode_ascii_ok|auto].
Qed.

Lemma url_char_ok_spec (c : Z) : url_char_ok c = true -> c <> 61 /\ is_url_safe c = true.
Proof.
  unfold url_char_ok. intros H. repeat rewrite andb_true_iff in H.
  destruct H as [[[H1 H2] _] _]. split; [|exact H2].
  intros ->. discriminate.
Qed.

(** C3: from the 43 random bytes, the verifier is their unpadded
    base64url encoding: 58 (so at least 43) URL-safe characters and no
    ['=']; the challenge of that verifier is the unpadded base64url
    encoding of the SHA-256 digest of its ASCII bytes (the verifier's
    code points), a function of the verifier alone. *)
Theorem pkce_verifier_and_challenge (rnd : list Z) :
  List.length rnd = 43%nat -> forallb is_byte rnd = true ->
  exists verifier,
    _generate_code_verifier rnd = Some verifier /\
    verifier = base64url_nopad rnd /\
    List.length verifier = 58%nat /\ (43 <= List.length verifier)%nat /\
    forallb is_url_safe verifier = true /\ ~ In 61 verifier /\
    encode_ascii verifier = Some verifier /\
    _generate_code_challenge verifier = Some (base64url_nopad (sha256 verifier)) /\
    (forall v', v' = verifier -> _generate_code_challenge v' = _generate_code_challenge verifier).
Proof.
  intros Hl Hb. destruct (generate_b64url rnd Hb) as [E [F L]].
  exists (base64url_nopad rnd).
  assert (Henc : encode_ascii (base64url_nopad rnd) = Some (base64url_nopad rnd)).
  { unfold encode_ascii. pose proof (decode_ascii_ok _ F) as D. unfold decode_ascii in D.
    exact D. }
  split; [exact E|]. split; [reflexivity|].
  rewrite L, Hl. split; [reflexivity|]. split; [cbn; lia|].
  split.
  { apply forallb_forall. intros x Hx. rewrite forallb_forall in F.
    apply (url_char_ok_spec x (F x Hx)). }
  split.
  { intros Hin. rewrite forallb_forall in F. apply (url_char_ok_spec 61 (F 61 Hin)). reflexivity. }
  split; [exact Henc|]. split; [|intros v' ->; reflexivity].
  unfold _generate_code_challenge. rewrite Henc.
  destruct (generate_b64url (sha256 (base64url_nopad rnd)) (sha256_bytes _)) as [E2 _].
  exact E2.
Qed.

Lemma pkce_verifier_and_challenge_witness :
  List.length (map Z.of_nat (seq 200 43)) = 43%nat /\
  forallb is_byte (map Z.of_nat (seq 200 43)) = true /\
  exists verifier, _generate_code_verifier (map Z.of_nat (seq 200 43)) = Some verifier /\
    List.length verifier = 58%nat /\
    _generate_code_challenge verifier = Some (base64url_nopad (sha256 verifier)).
Proof.
  split; [reflexivity|]. split; [vm_compute; reflexivity|].
  destruct (pkce_verifier_and_challenge (map Z.of_nat (seq 200 43)))
    as [v [G [_ [L [_ [_ [_ [_ [C _]]]]]]]]]; [reflexivity|vm_compute; reflexivity|].
  exists v. split; [exact G|]. split; [exact L|exact C].
Defined.

End PkceClaims.

(** * Token exchange and refresh *)
Module TokenClaims.
Import TokenClient.
Open Scope Z_scope.

Lemma app_prefix_neq (a x b : pystr) : prefixb a b = false -> a ++ x <> b.
Proof.
  revert b. induction a as [|y a IH]; intros [|z b]; simpl; try discriminate; auto.
  intros H E. injection E as E1 E2. subst z. rewrite Z.eqb_refl in H. exact (IH b H E2).
Qed.

Lemma prefixb_app (p b : pystr) : prefixb p (p ++ b) = true.
Proof. induction p as [|x p IH]; simpl; auto. now rewrite Z.eqb_refl. Qed.

Lemma containsb_app_l (a l p : pystr) : containsb l p = true -> containsb (a ++ l) p = true.
Proof.
  induction a as [|x a IH]; simpl; auto. intros H. rewrite (IH H). apply orb_true_r.
Qed.

Lemma containsb_mid (a p b : pystr) : containsb (a ++ p ++ b) p = true.
Proof.
  apply containsb_app_l. destruct p as [|x p]; simpl.
  - destruct b; reflexivity.
  - now rewrite Z.eqb_refl, prefixb_app.
Qed.

Lemma error_dict_inj m1 m2 : error_dict m1 = error_dict m2 -> m1 = m2.
Proof. unfold error_dict. now intros [= ->]. Qed.

Lemma read_tokens_stamped json_loads now body d :
  read_tokens json_loads now body = inl d -> stamped json_loads now body d.
Proof.
  intros H. unfold read_tokens in H. unfold stamped.
  destruct (utf8_decode body) as [s|] eqn:U; [|discriminate].
  destruct (json_loads s) as [[| | | | |d0]|] eqn:J; try discriminate.
  exists s, d0. split; [reflexivity|]. split; [exact J|].
  cbv zeta in H.
  destruct (dict_get d0 (py "expires_in")) as [[|b|n| | |]|]; cbn [py_add_int] in H;
    try discriminate; injection H as <-.
  - right; right. exists b. auto.
  - right; left. exists n. auto.
  - left. auto.
Qed.

Lemma stamped_expires_at json_loads now body d :
  stamped json_loads now body d ->
  exists n, dict_get d (py "expires_at") = Some (PInt (now + n)).
Proof.
  intros [s [d0 [_ [_ [[_ ->]|[[n [_ ->]]|[b [_ ->]]]]]]]];
    eexists; apply dict_get_set_eq.
Qed.

(** C8: a successful exchange or refresh returns the parsed response
    with ["expires_at"] stamped as the receipt time plus ["expires_in"],
    or plus 3600 when it is absent, whatever ["expires_at"] the response
    itself carried. *)
Theorem success_expires_at post json_loads str_exn now (code verifier refresh_token : pystr)
    (body : list Z) (d : dict) :
  read_tokens json_loads now body = inl d ->
  stamped json_loads now body d /\
  (post (exchange_form code verifier) = HttpOk body ->
   exchange_code_for_tokens post json_loads str_exn now code verifier = d) /\
  (post (refresh_form refresh_token) = HttpOk body ->
   refresh_access_token post json_loads str_exn now refresh_token = d).
Proof.
  intros H. split; [now apply read_tokens_stamped|]. split; intros P.
  - unfold exchange_code_for_tokens. now rewrite P, H.
  - unfold refresh_access_token. now rewrite P, H.
Qed.

Lemma revoked_prefix_1 : prefixb (py "Token refresh failed: ") revoked_msg = false.
Proof. reflexivity. Qed.

Lemma revoked_prefix_2 : prefixb (py "Token refresh failed (HTTP ") revoked_msg = false.
Proof. reflexivity. Qed.

(** C6 (as the code has it): a 4xx answer to a refresh yields the
    "Token revoked or expired. Please re-authorize." error, and only a
    4xx does; a 500 yields the generic "Token refresh failed (HTTP 500)",
    which carries the status but not the response body. *)
Theorem refresh_error_kinds post json_loads str_exn now (rt : pystr) :
  (forall c b, post (refresh_form rt) = HttpError c b -> 400 <= c < 500 ->
     refresh_access_token post json_loads str_exn now rt = error_dict revoked_msg) /\
  (forall b, post (refresh_form rt) = HttpError 500 b ->
     refresh_access_token post json_loads str_exn now rt
     = error_dict (py "Token refresh failed (HTTP 500)")) /\
  (refresh_access_token post json_loads str_exn now rt = error_dict revoked_msg ->
     exists c b, post (refresh_form rt) = HttpError c b /\ 400 <= c < 500).
Proof.
  unfold refresh_access_token. split; [|split].
  - intros c b P R. rewrite P. replace ((400 <=? c) && (c <? 500)) with true; [reflexivity|].
    symmetry. apply andb_true_iff. split; [apply Z.leb_le|apply Z.ltb_lt]; lia.
  - intros b P. now rewrite P.
  - destruct (post (refresh_form rt)) as [body|c b|m].
    + destruct (read_tokens json_loads now body) as [d|e] eqn:R.
      * intros ->. apply read_tokens_stamped, stamped_expires_at in R as [n R].
        unfold error_dict in R. vm_compute in R. discriminate.
      * intros E. apply error_dict_inj in E. exfalso. exact (app_prefix_neq _ _ _ revoked_prefix_1 E).
    + destruct ((400 <=? c) && (c <? 500)) eqn:C.
      * intros _. exists c, b. split; [reflexivity|].
        apply andb_true_iff in C as [C1 C2]. apply Z.leb_le in C1. apply Z.ltb_lt in C2. lia.
      * intros E. apply error_dict_inj in E. exfalso.
        exact (app_prefix_neq _ _ _ revoked_prefix_2 E).
    + intros E. apply error_dict_inj in E. exfalso. exact (app_prefix_neq _ _ _ revoked_prefix_1 E).
Qed.

(** C6 fails as stated: the message of a refresh answered by HTTP 500
    with body "boom" does not carry the body. *)
Lemma refresh_500_drops_body :
  let r := refresh_access_token (fun _ => HttpError 500 (Some (py "boom")))
                                (fun _ => None) (fun _ => []) 0 (py "rt") in
  r = error_dict (py "Token refresh failed (HTTP 500)") /\
  containsb (py "Token refresh failed (HTTP 500)") (py "boom") = false.
Proof. split; reflexivity. Qed.

(** C7 (as the code has it): an [HTTPError] answer to the exchange yields
    an error whose message carries the status and the body decoded as
    UTF-8; in particular HTTP 400 with body "invalid_grant" gives a
    message containing "400" and "invalid_grant".  When [e.read()] raises
    or the body is not valid UTF-8, the message carries the status and an
    empty body. *)
Theorem exchange_http_error_message post json_loads str_exn now (code verifier : pystr)
    (c : Z) (b : option (list Z)) :
  post (exchange_form code verifier) = HttpError c b ->
  (forall body s, b = Some body -> utf8_decode body = Some s ->
   let m := py "Token exchange failed (HTTP " ++ str_of_Z c ++ py "): " ++ s in
   exchange_code_for_tokens post json_loads str_exn now code verifier = error_dict m /\
   containsb m (str_of_Z c) = true /\ containsb m s = true /\
   (c = 400 -> s = py "invalid_grant" ->
    containsb m (py "400") = true /\ containsb m (py "invalid_grant") = true)) /\
  ((b = None \/ exists body, b = Some body /\ utf8_decode body = None) ->
   exchange_code_for_tokens post json_loads str_exn now code verifier
   = error_dict (py "Token exchange failed (HTTP " ++ str_of_Z c ++ py "): ")).
Proof.
  intros P. unfold exchange_code_for_tokens. rewrite P. split.
  - intros body s -> U. rewrite U.
    split; [reflexivity|].
    split; [apply containsb_mid|].
    assert (Hs : containsb (py "Token exchange failed (HTTP " ++ str_of_Z c ++ py "): " ++ s) s = true).
    { do 3 apply containsb_app_l. pose proof (containsb_mid [] s []) as X.
      rewrite app_nil_r in X. exact X. }
    split; [exact Hs|]. intros -> ->. split; [apply containsb_mid|exact Hs].
  - intros [-> | [body [-> U]]]; [|rewrite U]; now rewrite app_nil_r.
Qed.

(** C7 fails as stated: a 400 whose body is not valid UTF-8 gives the same
    message as an empty body; the body is not carried. *)
Lemma exchange_undecodable_body_dropped :
  exchange_code_for_tokens (fun _ => HttpError 400 (Some [255])) (fun _ => None) (fun _ => []) 0
                           (py "code") (py "verifier")
  = error_dict (py "Token exchange failed (HTTP 400): ") /\
  exchange_code_for_tokens (fun _ => HttpError 400 (Some [255])) (fun _ => None) (fun _ => []) 0
                           (py "code") (py "verifier")
  = exchange_code_for_tokens (fun _ => HttpError 400 (Some [])) (fun _ => None) (fun _ => []) 0
                             (py "code") (py "verifier").
Proof. split; reflexivity. Qed.

Lemma success_expires_at_witness :
  let jl := fun s : pystr => if str_eqb s (py "{}")
            then Some (PDict [(py "access_token", PStr (py "tok")); (py "expires_in", PInt 7200)])
            else None in
  let post := fun _ : list (pystr * pystr) => HttpOk (py "{}") in
  read_tokens jl 1000 (py "{}")
  = inl [(py "access_token", PStr (py "tok")); (py "expires_in", PInt 7200);
         (py "expires_at", PInt 8200)] /\
  exchange_code_for_tokens post jl (fun _ => []) 1000 (py "c") (py "v")
  = [(py "access_token", PStr (py "tok")); (py "expires_in", PInt 7200);
     (py "expires_at", PInt 8200)].
Proof.
  intros jl post.
  assert (R : read_tokens jl 1000 (py "{}")
              = inl [(py "access_token", PStr (py "tok")); (py "expires_in", PInt 7200);
                     (py "expires_at", PInt 8200)]) by (vm_compute; reflexivity).
  split; [exact R|].
  destruct (success_expires_at post jl (fun _ => []) 1000 (py "c") (py "v") (py "r") (py "{}") _ R)
    as [_ [E _]].
  apply E. reflexivity.
Defined.

Lemma refresh_error_kinds_witness :
  refresh_access_token (fun _ => HttpError 401 None) (fun _ => None) (fun _ => []) 0 (py "rt")
  = error_dict revoked_msg.
Proof.
  destruct (refresh_error_kinds (fun _ => HttpError 401 None) (fun _ => None) (fun _ => []) 0 (py "rt"))
    as [H _].
  apply (H 401 None); [reflexivity|lia].
Defined.

Lemma exchange_http_error_message_witness :
  let post := fun _ : list (pystr * pystr) => HttpError 400 (Some (py "invalid_grant")) in
  exchange_code_for_tokens post (fun _ => None) (fun _ => []) 0 (py "c") (py "v")
  = error_dict (py "Token exchange failed (HTTP 400): invalid_grant") /\
  containsb (py "Token exchange failed (HTTP 400): invalid_grant") (py "400") = true /\
  containsb (py "Token exchange failed (HTTP 400): invalid_grant") (py "invalid_grant") = true /\
  exchange_code_for_tokens (fun _ => HttpError 502 None) (fun _ => None) (fun _ => []) 0
                           (py "c") (py "v")
  = error_dict (py "Token exchange failed (HTTP " ++ str_of_Z 502 ++ py "): ").
Proof.
  intros post.
  destruct (proj1 (exchange_http_error_message post (fun _ => None) (fun _ => []) 0 (py "c") (py "v")
              400 (Some (py "invalid_grant")) eq_refl)
              (py "invalid_grant") (py "invalid_grant") eq_refl ltac:(vm_compute; reflexivity))
    as [E [_ [_ F]]].
  destruct (F eq_refl eq_refl) as [F1 F2].
  split; [exact E|]. split; [exact F1|]. split; [exact F2|].
  apply (proj2 (exchange_http_error_message (fun _ => HttpError 502 None) (fun _ => None)
                  (fun _ => []) 0 (py "c") (py "v") 502 None eq_refl)).
  left. reflexivity.
Defined.

End TokenClaims.

(** * Claims decoding from the access token *)
Module JwtClaims.
Import Jwt.
Open Scope Z_scope.

Lemma empty_payload_identity json_loads_bytes token :
  decode_jwt_payload json_loads_bytes token = PDict [] ->
  extract_user_info json_loads_bytes token = Some (mkUser (PStr []) false false []).
Proof. intros H. unfold extract_user_info. rewrite H. reflexivity. Qed.

(** C9: [decode_jwt_payload] splits the token on ["."]; a segment count
    other than three, a middle segment that does not decode as padded
    URL-safe base64, or a payload that does not parse, gives [{}] and the
    empty identity without raising; a three-segment token whose payload's
    ["user"]["membership_roles"] is [["premium"]] gives [is_premium]. *)
Theorem decode_claims_reference (json_loads_bytes : list Z -> option pyval) :
  (forall token, List.length (split_dot token) <> 3%nat ->
     decode_jwt_payload json_loads_bytes token = PDict [] /\
     extract_user_info json_loads_bytes token = Some (mkUser (PStr []) false false [])) /\
  (forall token h p t, split_dot token = [h; p; t] -> b64url_decode p = None ->
     decode_jwt_payload json_loads_bytes token = PDict [] /\
     extract_user_info json_loads_bytes token = Some (mkUser (PStr []) false false [])) /\
  (forall token h p t b, split_dot token = [h; p; t] -> b64url_decode p = Some b ->
     json_loads_bytes b = None ->
     decode_jwt_payload json_loads_bytes token = PDict [] /\
     extract_user_info json_loads_bytes token = Some (mkUser (PStr []) false false [])) /\
  (forall token h p t b d u, split_dot token = [h; p; t] -> b64url_decode p = Some b ->
     json_loads_bytes b = Some (PDict d) -> dict_get d (py "user") = Some (PDict u) ->
     dict_get u (py "membership_roles") = Some (PList [PStr (py "premium")]) ->
     exists ui, extract_user_info json_loads_bytes token = Some ui /\ is_premium ui = true).
Proof.
  split; [|split; [|split]].
  - intros token L.
    assert (D : decode_jwt_payload json_loads_bytes token = PDict []).
    { unfold decode_jwt_payload.
      destruct (split_dot token) as [|a [|b [|c [|e l]]]]; try reflexivity.
      exfalso. apply L. reflexivity. }
    split; [exact D|]. now apply empty_payload_identity.
  - intros token h p t S B.
    assert (D : decode_jwt_payload json_loads_bytes token = PDict []).
    { unfold decode_jwt_payload. now rewrite S, B. }
    split; [exact D|]. now apply empty_payload_identity.
  - intros token h p t b S B J.
    assert (D : decode_jwt_payload json_loads_bytes token = PDict []).
    { unfold decode_jwt_payload. now rewrite S, B, J. }
    split; [exact D|]. now apply empty_payload_identity.
  - intros token h p t b d u S B J U R.
    unfold extract_user_info, decode_jwt_payload. rewrite S, B, J.
    cbn [py_get]. rewrite U. cbn [py_get]. rewrite R.
    eexists. split; [reflexivity|reflexivity].
Qed.

Lemma decode_claims_reference_witness :
  let pl := py "{" ++ [34] ++ py "user" ++ [34] ++ py ":{" ++ [34] ++ py "membership_roles" ++
            [34] ++ py ":[" ++ [34] ++ py "premium" ++ [34] ++ py "]}}" in
  let j := fun b : list Z => if str_eqb b pl
           then Some (PDict [(py "user", PDict [(py "membership_roles", PList [PStr (py "premium")])])])
           else None in
  let tok := py "h.eyJ1c2VyIjp7Im1lbWJlcnNoaXBfcm9sZXMiOlsicHJlbWl1bSJdfX0.s" in
  (decode_jwt_payload j (py "not-a-jwt") = PDict [] /\
   extract_user_info j (py "not-a-jwt") = Some (mkUser (PStr []) false false [])) /\
  (decode_jwt_payload j (py "a.Y.c") = PDict [] /\
   extract_user_info j (py "a.Y.c") = Some (mkUser (PStr []) false false [])) /\
  (decode_jwt_payload j (py "a.YWJj.c") = PDict [] /\
   extract_user_info j (py "a.YWJj.c") = Some (mkUser (PStr []) false false [])) /\
  (exists ui, extract_user_info j tok = Some ui /\ is_premium ui = true).
Proof.
  intros pl j tok.
  destruct (decode_claims_reference j) as [H1 [H2 [H3 H4]]].
  split; [apply H1; vm_compute; discriminate|].
  split; [apply (H2 _ (py "a") (py "Y") (py "c")); vm_compute; reflexivity|].
  split; [apply (H3 _ (py "a") (py "YWJj") (py "c") (py "abc")); vm_compute; reflexivity|].
  apply (H4 tok (py "h") (py "eyJ1c2VyIjp7Im1lbWJlcnNoaXBfcm9sZXMiOlsicHJlbWl1bSJdfX0") (py "s") pl
           [(py "user", PDict [(py "membership_roles", PList [PStr (py "premium")])])]
           [(py "membership_roles", PList [PStr (py "premium")])]);
    vm_compute; reflexivity.
Defined.

End JwtClaims.

(** * The manual-key session *)
Module SsoClaims.
Import Callback Sso.

(** C10: [_CallbackHandler.api_key] is a class attribute: starting the
    callback server of any instance [i] makes [poll_for_key] of every
    instance [j] return [None], and a key received by the serving listener
    of any instance [i] (open, its loop not stopped) is what
    [poll_for_key] of every instance [j] returns. *)
Theorem sso_api_key_shared (w : world) (i j : nat) (port : Z) (q : query) (k : pystr) :
  poll_for_key j (fst (start_callback_server i port w)) = None /\
  (s_listening (insts w i) = true -> s_done (insts w i) = false ->
   param (py "api_key") q = Some k ->
   poll_for_key j (fst (request i q w)) = Some k).
Proof.
  split; [reflexivity|]. intros L D P.
  pose proof (param_nonblank _ _ _ P) as NB.
  unfold request. rewrite L, D. cbn [andb negb]. unfold handler_get. rewrite P.
  destruct k as [|x k]; [congruence|reflexivity].
Qed.

Lemma sso_api_key_shared_witness :
  let w0 := mkWorld None (fun _ => sso_init) in
  let w1 := fst (start_callback_server 0 50000 w0) in
  poll_for_key 1 w1 = None /\
  poll_for_key 1 (fst (request 0 [(py "api_key", py "K")] w1)) = Some (py "K").
Proof.
  intros w0 w1. split.
  - exact (proj1 (sso_api_key_shared w0 0 1 50000 [] [])).
  - apply (proj2 (sso_api_key_shared w1 0 1 50000 [(py "api_key", py "K")] (py "K")));
      vm_compute; reflexivity.
Defined.

End SsoClaims.

(** * Further properties of the code *)

(** ** Base64url decoding of the JWT payload *)
Module B64Facts.
Import Pkce Jwt PkceClaims.
Open Scope Z_scope.

(** The translation of [urlsafe_b64decode]: ['-'] to ['+'], ['_'] to ['/']. *)
Definition url_tr (c : Z) : Z := if c =? 45 then 43 else if c =? 95 then 47 else c.

(** The number of ['='] that [_b64url_decode] appends to the unpadded
    encoding of [n] bytes. *)
Fixpoint pads_for (n : nat) : nat :=
  match n with
  | S (S (S m)) => pads_for m
  | 2 => 1
  | 1 => 2
  | O => 4
  end%nat.

Lemma sextet_char (i : Z) : sextet_ok i = true ->
  url_tr (urlchar i) = b64char i /\ b64_value (b64char i) = i /\
  (b64char i =? 61) = false /\ (64 <=? i) = false.
Proof.
  intros H.
  assert (Hb : forallb (fun n => let i := Z.of_nat n in
                 Z.eqb (url_tr (urlchar i)) (b64char i) && Z.eqb (b64_value (b64char i)) i &&
                 negb (b64char i =? 61))
                 (seq 0 64) = true) by (vm_compute; reflexivity).
  rewrite forallb_forall in Hb.
  unfold sextet_ok in H. apply andb_true_iff in H as [H1 H2].
  apply Z.leb_le in H1. apply Z.ltb_lt in H2.
  assert (Hin : In (Z.to_nat i) (seq 0 64)) by (apply in_seq; lia).
  specialize (Hb _ Hin). cbv zeta in Hb. rewrite Z2Nat.id in Hb by lia.
  apply andb_true_iff in Hb as [Hb E3]. apply andb_true_iff in Hb as [E1 E2].
  split; [apply Z.eqb_eq, E1|]. split; [apply Z.eqb_eq, E2|].
  split; [apply negb_true_iff, E3|]. apply Z.leb_gt. lia.
Qed.

Lemma a2b_q0 c s l p out : (c =? 61) = false -> (64 <=? b64_value c) = false ->
  a2b_loop (c :: s) 0 l p out = a2b_loop s 1 (b64_value c) 0 out.
Proof. intros H1 H2. cbn [a2b_loop]. rewrite H1. cbv zeta. rewrite H2. reflexivity. Qed.

Lemma a2b_q1 c s l p out : (c =? 61) = false -> (64 <=? b64_value c) = false ->
  a2b_loop (c :: s) 1 l p out =
  a2b_loop s 2 (Z.land (b64_value c) 15) 0
           (Z.land (Z.lor (Z.shiftl l 2) (Z.shiftr (b64_value c) 4)) 255 :: out).
Proof. intros H1 H2. cbn [a2b_loop]. rewrite H1. cbv zeta. rewrite H2. reflexivity. Qed.

Lemma a2b_q2 c s l p out : (c =? 61) = false -> (64 <=? b64_value c) = false ->
  a2b_loop (c :: s) 2 l p out =
  a2b_loop s 3 (Z.land (b64_value c) 3) 0
           (Z.land (Z.lor (Z.shiftl l 4) (Z.shiftr (b64_value c) 2)) 255 :: out).
Proof. intros H1 H2. cbn [a2b_loop]. rewrite H1. cbv zeta. rewrite H2. reflexivity. Qed.

Lemma a2b_q3 c s l p out : (c =? 61) = false -> (64 <=? b64_value c) = false ->
  a2b_loop (c :: s) 3 l p out =
  a2b_loop s 0 0 0 (Z.land (Z.lor (Z.shiftl l 6) (b64_value c)) 255 :: out).
Proof. intros H1 H2. cbn [a2b_loop]. rewrite H1. cbv zeta. rewrite H2. reflexivity. Qed.

(** The bit arithmetic of the decoder undoes that of the encoder. *)
Lemma byte1 a b : is_byte a = true -> is_byte b = true ->
  Z.land (Z.lor (Z.shiftl (Z.shiftr a 2) 2)
                (Z.shiftr (Z.lor (Z.shiftl (Z.land a 3) 4) (Z.shiftr b 4)) 4)) 255 = a.
Proof.
  intros Ha Hb. apply Z.eqb_eq. revert a b Ha Hb.
  apply (byte_cases2 (fun a b => Z.eqb (Z.land (Z.lor (Z.shiftl (Z.shiftr a 2) 2)
                (Z.shiftr (Z.lor (Z.shiftl (Z.land a 3) 4) (Z.shiftr b 4)) 4)) 255) a)).
  vm_compute. reflexivity.
Qed.

Lemma left1 a b : is_byte a = true -> is_byte b = true ->
  Z.land (Z.lor (Z.shiftl (Z.land a 3) 4) (Z.shiftr b 4)) 15 = Z.shiftr b 4.
Proof.
  intros Ha Hb. apply Z.eqb_eq. revert a b Ha Hb.
  apply (byte_cases2 (fun a b => Z.eqb (Z.land (Z.lor (Z.shiftl (Z.land a 3) 4) (Z.shiftr b 4)) 15)
                                       (Z.shiftr b 4))).
  vm_compute. reflexivity.
Qed.

Lemma byte2 b c : is_byte b = true -> is_byte c = true ->
  Z.land (Z.lor (Z.shiftl (Z.shiftr b 4) 4)
                (Z.shiftr (Z.lor (Z.shiftl (Z.land b 15) 2) (Z.shiftr c 6)) 2)) 255 = b.
Proof.
  intros Hb Hc. apply Z.eqb_eq. revert b c Hb Hc.
  apply (byte_cases2 (fun b c => Z.eqb (Z.land (Z.lor (Z.shiftl (Z.shiftr b 4) 4)
                (Z.shiftr (Z.lor (Z.shiftl (Z.land b 15) 2) (Z.shiftr c 6)) 2)) 255) b)).
  vm_compute. reflexivity.
Qed.

Lemma left2 b c : is_byte b = true -> is_byte c = true ->
  Z.land (Z.lor (Z.shiftl (Z.land b 15) 2) (Z.shiftr c 6)) 3 = Z.shiftr c 6.
Proof.
  intros Hb Hc. apply Z.eqb_eq. revert b c Hb Hc.
  apply (byte_cases2 (fun b c => Z.eqb (Z.land (Z.lor (Z.shiftl (Z.land b 15) 2) (Z.shiftr c 6)) 3)
                                       (Z.shiftr c 6))).
  vm_compute. reflexivity.
Qed.

Lemma byte3 c : is_byte c = true ->
  Z.land (Z.lor (Z.shiftl (Z.shiftr c 6) 6) (Z.land c 63)) 255 = c.
Proof.
  intros Hc. apply Z.eqb_eq. revert c Hc.
  apply (byte_cases (fun c => Z.eqb (Z.land (Z.lor (Z.shiftl (Z.shiftr c 6) 6) (Z.land c 63)) 255) c)).
  vm_compute. reflexivity.
Qed.

Lemma byte1_tail a : is_byte a = true ->
  Z.land (Z.lor (Z.shiftl (Z.shiftr a 2) 2) (Z.shiftr (Z.shiftl (Z.land a 3) 4) 4)) 255 = a.
Proof.
  intros Ha. apply Z.eqb_eq. revert a Ha.
  apply (byte_cases (fun a => Z.eqb (Z.land (Z.lor (Z.shiftl (Z.shiftr a 2) 2)
                                    (Z.shiftr (Z.shiftl (Z.land a 3) 4) 4)) 255) a)).
  vm_compute. reflexivity.
Qed.

Lemma byte2_tail b : is_byte b = true ->
  Z.land (Z.lor (Z.shiftl (Z.shiftr b 4) 4) (Z.shiftr (Z.shiftl (Z.land b 15) 2) 2)) 255 = b.
Proof.
  intros Hb. apply Z.eqb_eq. revert b Hb.
  apply (byte_cases (fun b => Z.eqb (Z.land (Z.lor (Z.shiftl (Z.shiftr b 4) 4)
                                    (Z.shiftr (Z.shiftl (Z.land b 15) 2) 2)) 255) b)).
  vm_compute. reflexivity.
Qed.

Lemma tr_char i : sextet_ok i = true -> url_tr (urlchar i) = b64char i.
Proof. intros H. apply (sextet_char i H). Qed.

Lemma a2b_s0 i s l p out : sextet_ok i = true ->
  a2b_loop (b64char i :: s) 0 l p out = a2b_loop s 1 i 0 out.
Proof.
  intros H. destruct (sextet_char i H) as [_ [V [N L]]].
  rewrite a2b_q0 by (rewrite ?V; assumption). now rewrite V.
Qed.

Lemma a2b_s1 i s l p out : sextet_ok i = true ->
  a2b_loop (b64char i :: s) 1 l p out =
  a2b_loop s 2 (Z.land i 15) 0 (Z.land (Z.lor (Z.shiftl l 2) (Z.shiftr i 4)) 255 :: out).
Proof.
  intros H. destruct (sextet_char i H) as [_ [V [N L]]].
  rewrite a2b_q1 by (rewrite ?V; assumption). now rewrite V.
Qed.

Lemma a2b_s2 i s l p out : sextet_ok i = true ->
  a2b_loop (b64char i :: s) 2 l p out =
  a2b_loop s 3 (Z.land i 3) 0 (Z.land (Z.lor (Z.shiftl l 4) (Z.shiftr i 2)) 255 :: out).
Proof.
  intros H. destruct (sextet_char i H) as [_ [V [N L]]].
  rewrite a2b_q2 by (rewrite ?V; assumption). now rewrite V.
Qed.

Lemma a2b_s3 i s l p out : sextet_ok i = true ->
  a2b_loop (b64char i :: s) 3 l p out =
  a2b_loop s 0 0 0 (Z.land (Z.lor (Z.shiftl l 6) i) 255 :: out).
Proof.
  intros H. destruct (sextet_char i H) as [_ [V [N L]]].
  rewrite a2b_q3 by (rewrite ?V; assumption). now rewrite V.
Qed.

Lemma a2b_nopad (n : nat) (bs : list Z) (out : list Z) :
  (List.length bs <= n)%nat -> forallb is_byte bs = true ->
  a2b_loop (map url_tr (base64url_nopad bs) ++ repeat 61 (pads_for (List.length bs))) 0 0 0 out
  = Some (rev out ++ bs).
Proof.
  revert bs out. induction n as [|n IH]; intros bs out L B.
  - destruct bs; [|cbn in L; lia]. rewrite app_nil_r. reflexivity.
  - destruct bs as [|a [|b [|c r]]].
    + rewrite app_nil_r. reflexivity.
    + cbn [forallb] in B. rewrite andb_true_r in B.
      pose proof (sextet1 a B) as S1. pose proof (sextet5 a B) as S2.
      cbn [base64url_nopad map app List.length pads_for repeat].
      rewrite (tr_char _ S1), (tr_char _ S2), (a2b_s0 _ _ _ _ _ S1), (a2b_s1 _ _ _ _ _ S2).
      rewrite (byte1_tail a B). reflexivity.
    + cbn [forallb] in B. rewrite andb_true_r in B. apply andb_true_iff in B as [Ba Bb].
      pose proof (sextet1 a Ba) as S1. pose proof (sextet2 a b Ba Bb) as S2.
      pose proof (sextet6 b Bb) as S3.
      cbn [base64url_nopad map app List.length pads_for repeat].
      rewrite (tr_char _ S1), (tr_char _ S2), (tr_char _ S3).
      rewrite (a2b_s0 _ _ _ _ _ S1), (a2b_s1 _ _ _ _ _ S2), (a2b_s2 _ _ _ _ _ S3).
      rewrite (byte1 a b Ba Bb), (left1 a b Ba Bb), (byte2_tail b Bb).
      transitivity (Some (rev (b :: a :: out))); [reflexivity|].
      cbn [rev]. now rewrite <- app_assoc.
    + cbn [forallb] in B. apply andb_true_iff in B as [Ba B].
      apply andb_true_iff in B as [Bb B]. apply andb_true_iff in B as [Bc Br].
      pose proof (sextet1 a Ba) as S1. pose proof (sextet2 a b Ba Bb) as S2.
      pose proof (sextet3 b c Bb Bc) as S3. pose proof (sextet4 c Bc) as S4.
      cbn [base64url_nopad map app List.length pads_for].
      rewrite (tr_char _ S1), (tr_char _ S2), (tr_char _ S3), (tr_char _ S4).
      rewrite (a2b_s0 _ _ _ _ _ S1), (a2b_s1 _ _ _ _ _ S2), (a2b_s2 _ _ _ _ _ S3),
              (a2b_s3 _ _ _ _ _ S4).
      rewrite (byte1 a b Ba Bb), (left1 a b Ba Bb), (byte2 b c Bb Bc), (left2 b c Bb Bc),
              (byte3 c Bc).
      cbn [List.length] in L. rewrite IH by (auto; lia).
      cbn [rev]. now rewrite <- !app_assoc.
Qed.

Lemma pads_for_len (n : nat) : Z.to_nat (4 - Z.of_nat (nopad_len n) mod 4) = pads_for n.
Proof.
  assert (H : forall k m, (m <= k)%nat ->
              Z.to_nat (4 - Z.of_nat (nopad_len m) mod 4) = pads_for m).
  { induction k as [|k IH]; intros m Hm.
    - destruct m; [reflexivity|lia].
    - destruct m as [|[|[|m]]]; try reflexivity.
      cbn [nopad_len pads_for]. rewrite Nat2Z.inj_add.
      replace (Z.of_nat 4 + Z.of_nat (nopad_len m)) with (Z.of_nat (nopad_len m) + 1 * 4) by lia.
      rewrite Z_mod_plus_full. apply IH. lia. }
  apply (H n n). lia.
Qed.

Lemma map_tr_pad (l : list Z) (k : nat) : map url_tr (l ++ repeat 61 k) = map url_tr l ++ repeat 61 k.
Proof. rewrite map_app. f_equal. induction k as [|k IH]; cbn; [reflexivity|]. now rewrite IH. Qed.

Lemma urlsafe_b64decode_eq (s : pystr) :
  urlsafe_b64decode s =
  if forallb (fun c => (0 <=? c) && (c <? 128)) s then a2b_base64 (map url_tr s) else None.
Proof. reflexivity. Qed.

Lemma ascii_of_url (l : list Z) (k : nat) : forallb url_char_ok l = true ->
  forallb (fun c => (0 <=? c) && (c <? 128)) (l ++ repeat 61 k) = true.
Proof.
  intros H. rewrite forallb_app, andb_true_iff. split.
  - induction l as [|x l IH]; [reflexivity|]. cbn [forallb] in *.
    apply andb_true_iff in H as [H1 H2]. rewrite (IH H2), andb_true_r.
    unfold url_char_ok in H1. repeat rewrite andb_true_iff in H1. destruct H1 as [[[_ _] A] B].
    now rewrite A, B.
  - induction k as [|k IH]; [reflexivity|]. exact IH.
Qed.

Lemma b64url_decode_nopad (bs : list Z) : forallb is_byte bs = true ->
  b64url_decode (base64url_nopad bs) = Some bs.
Proof.
  intros B. destruct (generate_b64url bs B) as [_ [U L]].
  unfold b64url_decode. rewrite L, pads_for_len, urlsafe_b64decode_eq, (ascii_of_url _ _ U).
  unfold a2b_base64. rewrite map_tr_pad. apply (a2b_nopad (List.length bs)); auto.
Qed.

Lemma sha_round_len st kw : List.length (sha_round st kw) = List.length st.
Proof.
  unfold sha_round.
  destruct st as [|a [|b [|c [|d [|e [|f [|g [|h [|x r]]]]]]]]]; reflexivity.
Qed.

Lemma fold_sha_round_len st kws : List.length (fold_left sha_round kws st) = List.length st.
Proof.
  revert st. induction kws as [|kw kws IH]; intros st; [reflexivity|].
  cbn [fold_left]. rewrite IH. apply sha_round_len.
Qed.

Lemma compress_len hs block : List.length (compress hs block) = List.length hs.
Proof.
  unfold compress. rewrite length_map, length_combine, fold_sha_round_len. lia.
Qed.

Lemma sha_blocks_len fuel m hs : List.length (sha_blocks fuel m hs) = List.length hs.
Proof.
  revert m hs. induction fuel as [|f IH]; intros m hs; [reflexivity|].
  cbn [sha_blocks]. destruct m; [reflexivity|]. rewrite IH. apply compress_len.
Qed.

Lemma flat_be_bytes_len (l : list Z) : List.length (flat_map (be_bytes 4) l) = (4 * List.length l)%nat.
Proof.
  induction l as [|x l IH]; [reflexivity|]. cbn [flat_map]. rewrite length_app, IH.
  unfold be_bytes. rewrite length_map, length_seq. cbn [List.length]. lia.
Qed.

Lemma sha256_len m : List.length (sha256 m) = 32%nat.
Proof. unfold sha256. cbv zeta. rewrite flat_be_bytes_len, sha_blocks_len. reflexivity. Qed.

End B64Facts.

(** ** PKCE values and the JWT payload, decoded *)
Module JwtFacts.
Import Pkce Jwt PkceClaims B64Facts.
Open Scope Z_scope.

Lemma split_dot_no_dot (t cur : pystr) : forallb (fun c => negb (c =? 46)) t = true ->
  split_dot_aux t cur = [rev cur ++ t].
Proof.
  revert cur. induction t as [|x t IH]; intros cur H.
  - cbn. now rewrite app_nil_r.
  - cbn [forallb] in H. apply andb_true_iff in H as [H1 H2]. apply negb_true_iff in H1.
    cbn [split_dot_aux]. rewrite H1, IH by exact H2. cbn [rev]. now rewrite <- app_assoc.
Qed.

Lemma split_dot_seg (h s cur : pystr) : forallb (fun c => negb (c =? 46)) h = true ->
  split_dot_aux (h ++ 46 :: s) cur = (rev cur ++ h) :: split_dot_aux s [].
Proof.
  revert cur. induction h as [|x h IH]; intros cur H.
  - cbn. now rewrite app_nil_r.
  - cbn [forallb] in H. apply andb_true_iff in H as [H1 H2]. apply negb_true_iff in H1.
    cbn [app split_dot_aux]. rewrite H1, IH by exact H2. cbn [rev]. now rewrite <- app_assoc.
Qed.

Lemma url_no_dot (p : pystr) : forallb url_char_ok p = true -> forallb (fun c => negb (c =? 46)) p = true.
Proof.
  induction p as [|x p IH]; [reflexivity|]. cbn [forallb]. intros H.
  apply andb_true_iff in H as [H1 H2]. rewrite (IH H2), andb_true_r.
  destruct (x =? 46) eqn:E; [|reflexivity]. apply Z.eqb_eq in E. subst x. discriminate H1.
Qed.

Lemma role_in (x : pystr) (l : list pyval) :
  existsb (fun v => match v with PStr s => str_eqb s x | _ => false end) l = true <-> In (PStr x) l.
Proof.
  rewrite existsb_exists. split.
  - intros [v [I E]]. destruct v; try discriminate. apply str_eqb_eq in E. now subst.
  - intros I. exists (PStr x). split; [exact I|apply str_eqb_refl].
Qed.

Lemma url_safe_valid (c : Z) : is_url_safe c = true ->
  (url_tr c =? 61) = false /\ (64 <=? b64_value (url_tr c)) = false /\
  (0 <=? c) && (c <? 128) = true.
Proof.
  intros H. unfold is_url_safe in H. apply existsb_exists in H as [y [I E]].
  apply Z.eqb_eq in E. subst y.
  assert (A : forallb (fun c => negb (url_tr c =? 61) && negb (64 <=? b64_value (url_tr c))
                                && ((0 <=? c) && (c <? 128))) url_alphabet = true)
    by (vm_compute; reflexivity).
  rewrite forallb_forall in A. specialize (A c I).
  apply andb_true_iff in A as [A A3]. apply andb_true_iff in A as [A1 A2].
  apply negb_true_iff in A1. apply negb_true_iff in A2. auto.
Qed.

Lemma a2b_valid_prefix (cs rest : list Z) (q l p : Z) (out : list Z) :
  0 <= q < 4 -> forallb is_url_safe cs = true ->
  exists l' p' out', a2b_loop (map url_tr cs ++ rest) q l p out
                     = a2b_loop rest ((q + Z.of_nat (List.length cs)) mod 4) l' p' out'.
Proof.
  revert q l p out. induction cs as [|c cs IH]; intros q l p out Q H.
  - exists l, p, out. cbn [map app List.length]. rewrite Z.add_0_r, Z.mod_small by lia. reflexivity.
  - cbn [forallb] in H. apply andb_true_iff in H as [Hc H].
    destruct (url_safe_valid c Hc) as [N [V _]].
    cbn [map app List.length].
    assert (Hq : q = 0 \/ q = 1 \/ q = 2 \/ q = 3) by lia.
    assert (M : forall q', (q + 1) mod 4 = q' ->
                ((q' + Z.of_nat (List.length cs)) mod 4 = (q + Z.of_nat (S (List.length cs))) mod 4)).
    { intros q' <-. rewrite Z.add_mod_idemp_l by lia. f_equal. lia. }
    destruct Hq as [ -> | [ -> | [ -> | -> ]]].
    + rewrite a2b_q0 by assumption.
      destruct (IH 1 (b64_value (url_tr c)) 0 out ltac:(lia) H) as [l' [p' [o' R]]].
      exists l', p', o'. rewrite R, (M 1) by reflexivity. reflexivity.
    + rewrite a2b_q1 by assumption.
      destruct (IH 2 (Z.land (b64_value (url_tr c)) 15) 0
        (Z.land (Z.lor (Z.shiftl l 2) (Z.shiftr (b64_value (url_tr c)) 4)) 255 :: out) ltac:(lia) H) as [l' [p' [o' R]]].
      exists l', p', o'. rewrite R, (M 2) by reflexivity. reflexivity.
    + rewrite a2b_q2 by assumption.
      destruct (IH 3 (Z.land (b64_value (url_tr c)) 3) 0
        (Z.land (Z.lor (Z.shiftl l 4) (Z.shiftr (b64_value (url_tr c)) 2)) 255 :: out) ltac:(lia) H) as [l' [p' [o' R]]].
      exists l', p', o'. rewrite R, (M 3) by reflexivity. reflexivity.
    + rewrite a2b_q3 by assumption.
      destruct (IH 0 0 0
        (Z.land (Z.lor (Z.shiftl l 6) (b64_value (url_tr c))) 255 :: out) ltac:(lia) H) as [l' [p' [o' R]]].
      exists l', p', o'. rewrite R, (M 0) by reflexivity. reflexivity.
Qed.

Lemma a2b_pads_q1 (k : nat) (l p : Z) (out : list Z) : a2b_loop (repeat 61 k) 1 l p out = None.
Proof. revert p. induction k as [|k IH]; intros p; [reflexivity|]. cbn [repeat a2b_loop]. apply IH. Qed.

Lemma url_ok_safe (l : list Z) : forallb url_char_ok l = true -> forallb is_url_safe l = true.
Proof.
  induction l as [|x l IH]; [reflexivity|]. cbn [forallb]. intros H.
  apply andb_true_iff in H as [H1 H2]. rewrite (IH H2), andb_true_r.
  apply (url_char_ok_spec x H1).
Qed.

(** X1: For every byte string [rnd], [_generate_code_verifier] succeeds and
    [_b64url_decode] maps the verifier back to [rnd]: the one, two or four
    ['='] it appends are accepted by [urlsafe_b64decode] whatever the
    length. *)
Theorem verifier_b64url_roundtrip (rnd : list Z) : forallb is_byte rnd = true ->
  exists v, _generate_code_verifier rnd = Some v /\ b64url_decode v = Some rnd.
Proof.
  intros B. destruct (generate_b64url rnd B) as [G _].
  exists (base64url_nopad rnd). split; [exact G|]. now apply b64url_decode_nopad.
Qed.

Lemma verifier_b64url_roundtrip_witness :
  forallb is_byte [104; 105; 0; 255] = true /\
  exists v, _generate_code_verifier [104; 105; 0; 255] = Some v /\
            b64url_decode v = Some [104; 105; 0; 255].
Proof. split; [reflexivity|]. apply verifier_b64url_roundtrip. reflexivity. Defined.

(** X2: [_generate_code_challenge(v)] raises on a verifier with a non-ASCII
    character; on any ASCII verifier it returns 43 URL-safe characters
    that [_b64url_decode] maps to the SHA-256 digest of the verifier. *)
Theorem code_challenge_any_verifier (v : pystr) :
  (forallb (fun c => (0 <=? c) && (c <? 128)) v = false -> _generate_code_challenge v = None) /\
  (forallb (fun c => (0 <=? c) && (c <? 128)) v = true ->
   exists ch, _generate_code_challenge v = Some ch /\ List.length ch = 43%nat /\
              forallb is_url_safe ch = true /\ b64url_decode ch = Some (sha256 v)).
Proof.
  unfold _generate_code_challenge, encode_ascii. split; intros H; rewrite H; [reflexivity|].
  destruct (generate_b64url (sha256 v) (sha256_bytes v)) as [G [U L]].
  exists (base64url_nopad (sha256 v)). split; [exact G|].
  split; [rewrite L, sha256_len; reflexivity|].
  split; [now apply url_ok_safe|]. apply b64url_decode_nopad, sha256_bytes.
Qed.

Lemma code_challenge_any_verifier_witness :
  _generate_code_challenge (py "h" ++ [233]) = None /\
  exists ch, _generate_code_challenge (py "abc") = Some ch /\ List.length ch = 43%nat /\
             forallb is_url_safe ch = true /\ b64url_decode ch = Some (sha256 (py "abc")).
Proof.
  split.
  - apply (proj1 (code_challenge_any_verifier (py "h" ++ [233]))). reflexivity.
  - apply (proj2 (code_challenge_any_verifier (py "abc"))). reflexivity.
Defined.

(** X3: A token [h.p.t] whose middle segment [p] is
    [urlsafe_b64encode(b).rstrip(b"=").decode()] for a byte string [b],
    with no ['.'] in [h] or [t], decodes to [json.loads(b)], or to [{}]
    when that raises. *)
Theorem decode_jwt_payload_encoded (json_loads_bytes : list Z -> option pyval)
    (h t b p : list Z) :
  forallb is_byte b = true -> decode_ascii (rstrip_eq (urlsafe_b64encode b)) = Some p ->
  forallb (fun c => negb (c =? 46)) h = true -> forallb (fun c => negb (c =? 46)) t = true ->
  decode_jwt_payload json_loads_bytes (h ++ 46 :: p ++ 46 :: t)
  = match json_loads_bytes b with Some v => v | None => PDict [] end.
Proof.
  intros B P Hh Ht. destruct (generate_b64url b B) as [G [U _]].
  rewrite G in P. injection P as <-.
  unfold decode_jwt_payload, split_dot.
  rewrite (split_dot_seg h _ [] Hh), (split_dot_seg _ t [] (url_no_dot _ U)),
          (split_dot_no_dot t [] Ht).
  cbn [rev app]. rewrite (b64url_decode_nopad b B). reflexivity.
Qed.

Lemma decode_jwt_payload_encoded_witness :
  decode_jwt_payload (fun b => if str_eqb b (py "{}") then Some (PDict []) else Some PNone)
                     (py "h" ++ 46 :: py "e30" ++ 46 :: py "s") = PDict [].
Proof.
  rewrite (decode_jwt_payload_encoded _ (py "h") (py "s") (py "{}") (py "e30"));
    try reflexivity.
Defined.

(** X4: A token of three segments whose middle segment consists of URL-safe
    characters and has a length of 1 modulo 4 (a truncated segment) never
    decodes: [decode_jwt_payload] returns [{}] and [extract_user_info]
    the empty identity. *)
Theorem truncated_payload_segment (json_loads_bytes : list Z -> option pyval)
    (token h p t : pystr) :
  split_dot token = [h; p; t] -> forallb is_url_safe p = true ->
  (List.length p mod 4 = 1)%nat ->
  decode_jwt_payload json_loads_bytes token = PDict [] /\
  extract_user_info json_loads_bytes token = Some (mkUser (PStr []) false false []).
Proof.
  intros S U M.
  assert (D : b64url_decode p = None).
  { unfold b64url_decode.
    assert (E : Z.of_nat (List.length p) mod 4 = 1).
    { change 4 with (Z.of_nat 4). rewrite <- Nat2Z.inj_mod, M. reflexivity. }
    rewrite E. change (Z.to_nat (4 - 1)) with 3%nat. rewrite urlsafe_b64decode_eq.
    destruct (forallb (fun c => (0 <=? c) && (c <? 128)) _); [|reflexivity].
    unfold a2b_base64. rewrite map_tr_pad.
    destruct (a2b_valid_prefix p (repeat 61 3) 0 0 0 [] ltac:(lia) U) as [l' [p' [o' R]]].
    rewrite R, Z.add_0_l, E. apply a2b_pads_q1. }
  assert (P : decode_jwt_payload json_loads_bytes token = PDict []).
  { unfold decode_jwt_payload. now rewrite S, D. }
  split; [exact P|]. unfold extract_user_info. rewrite P. reflexivity.
Qed.

Lemma truncated_payload_segment_witness :
  decode_jwt_payload (fun _ => Some (PDict [(py "user", PNone)])) (py "h.eyJ1c.s") = PDict [].
Proof.
  apply (truncated_payload_segment _ (py "h.eyJ1c.s") (py "h") (py "eyJ1c") (py "s"));
    reflexivity.
Defined.

(** X5: [extract_user_info] on a payload [p]: it raises when [p] or its
    ["user"] is not an object; with a ["membership_roles"] list it sets
    [is_premium] exactly when the list holds "premium" or
    "lifetimepremium" and [is_supporter] exactly when it holds
    "supporter", the name being ["username"] or [""]; with a
    ["membership_roles"] string the tests are substring tests. *)
Theorem extract_user_info_cases (json_loads_bytes : list Z -> option pyval) (token : pystr) :
  ((forall d, decode_jwt_payload json_loads_bytes token <> PDict d) ->
   extract_user_info json_loads_bytes token = None) /\
  (forall d u, decode_jwt_payload json_loads_bytes token = PDict d ->
   dict_get d (py "user") = Some u -> (forall d', u <> PDict d') ->
   extract_user_info json_loads_bytes token = None) /\
  (forall d u l, decode_jwt_payload json_loads_bytes token = PDict d ->
   dict_get d (py "user") = Some (PDict u) ->
   dict_get u (py "membership_roles") = Some (PList l) ->
   exists ui, extract_user_info json_loads_bytes token = Some ui /\
     u_name ui = match dict_get u (py "username") with Some n => n | None => PStr [] end /\
     (is_premium ui = true <-> In (PStr (py "premium")) l \/ In (PStr (py "lifetimepremium")) l) /\
     (is_supporter ui = true <-> In (PStr (py "supporter")) l)) /\
  (forall d u r, decode_jwt_payload json_loads_bytes token = PDict d ->
   dict_get d (py "user") = Some (PDict u) ->
   dict_get u (py "membership_roles") = Some (PStr r) ->
   exists ui, extract_user_info json_loads_bytes token = Some ui /\
     is_premium ui = containsb r (py "premium") || containsb r (py "lifetimepremium") /\
     is_supporter ui = containsb r (py "supporter")).
Proof.
  unfold extract_user_info. split; [|split; [|split]].
  - intros N. destruct (decode_jwt_payload json_loads_bytes token) eqn:E;
      try reflexivity. exfalso. exact (N d eq_refl).
  - intros d u D G N. rewrite D. cbn [py_get]. rewrite G.
    destruct u; try reflexivity. exfalso. exact (N d0 eq_refl).
  - intros d u l D G R. rewrite D. cbn [py_get]. rewrite G. cbn [py_get]. rewrite R.
    cbn [py_in].
    destruct (existsb _ l) eqn:P1;
      [|destruct (existsb (fun v => match v with PStr s => str_eqb s (py "lifetimepremium")
                                     | _ => false end) l) eqn:P2];
      eexists; (split; [reflexivity|]); cbn [u_name is_premium is_supporter];
      (split; [reflexivity|]); rewrite <- !role_in; rewrite ?P1, ?P2; intuition congruence.
  - intros d u r D G R. rewrite D. cbn [py_get]. rewrite G. cbn [py_get]. rewrite R.
    cbn [py_in]. destruct (containsb r (py "premium")); eexists; (split; [reflexivity|]);
      cbn [is_premium is_supporter]; auto.
Qed.

Lemma extract_user_info_cases_witness :
  extract_user_info (fun _ => Some (PList [])) (py "h.e30.s") = None /\
  exists ui, extract_user_info
               (fun _ => Some (PDict [(py "user", PDict [(py "membership_roles",
                                         PList [PStr (py "lifetimepremium")])])]))
               (py "h.e30.s") = Some ui /\ is_premium ui = true.
Proof.
  split.
  - apply (proj1 (extract_user_info_cases (fun _ => Some (PList [])) (py "h.e30.s"))).
    intros d. vm_compute. discriminate.
  - destruct (proj1 (proj2 (proj2 (extract_user_info_cases
                (fun _ => Some (PDict [(py "user", PDict [(py "membership_roles",
                                         PList [PStr (py "lifetimepremium")])])]))
                (py "h.e30.s"))))
      _ _ _ ltac:(vm_compute; reflexivity) ltac:(vm_compute; reflexivity)
      ltac:(vm_compute; reflexivity)) as [ui [E [_ [P _]]]].
    exists ui. split; [exact E|]. apply P. right. left. reflexivity.
Defined.

End JwtFacts.

(** ** Further facts: the token endpoint functions *)
Module TokenFacts.
Import TokenClient TokenClaims.

(** X7: A 200 response whose JSON object has an ["expires_in"] that is not a
    number (a string, [null], a list or an object) makes both functions
    return the generic failure with the [TypeError] text; a 200 response
    whose JSON is not an object gives the [AttributeError] text: the
    tokens it may carry are dropped. *)
Theorem success_status_type_errors post json_loads str_exn now
    (code verifier refresh_token : pystr) (body : list Z) (s : pystr) :
  post (exchange_form code verifier) = HttpOk body ->
  post (refresh_form refresh_token) = HttpOk body ->
  utf8_decode body = Some s ->
  (forall d0 x, json_loads s = Some (PDict d0) -> dict_get d0 (py "expires_in") = Some x ->
   (forall n, x <> PInt n) -> (forall b, x <> PBool b) ->
   exchange_code_for_tokens post json_loads str_exn now code verifier
   = error_dict (py "Token exchange failed: " ++ str_exn TypeError) /\
   refresh_access_token post json_loads str_exn now refresh_token
   = error_dict (py "Token refresh failed: " ++ str_exn TypeError)) /\
  (forall v, json_loads s = Some v -> (forall d, v <> PDict d) ->
   exchange_code_for_tokens post json_loads str_exn now code verifier
   = error_dict (py "Token exchange failed: " ++ str_exn AttributeError) /\
   refresh_access_token post json_loads str_exn now refresh_token
   = error_dict (py "Token refresh failed: " ++ str_exn AttributeError)).
Proof.
  intros P1 P2 U. unfold exchange_code_for_tokens, refresh_access_token. rewrite P1, P2.
  split.
  - intros d0 x J G N B.
    assert (R : read_tokens json_loads now body = inr TypeError).
    { unfold read_tokens. rewrite U, J, G.
      destruct x as [|b|n| | |];
        [reflexivity|exfalso; exact (B b eq_refl)|exfalso; exact (N n eq_refl)|..];
        reflexivity. }
    rewrite R. split; reflexivity.
  - intros v J N.
    assert (R : read_tokens json_loads now body = inr AttributeError).
    { unfold read_tokens. rewrite U, J.
      destruct v; try reflexivity. exfalso. exact (N d eq_refl). }
    rewrite R. split; reflexivity.
Qed.

Lemma success_status_type_errors_witness :
  exchange_code_for_tokens (fun _ => HttpOk (py "x"))
    (fun _ => Some (PDict [(py "expires_in", PStr (py "3600"))])) (fun _ => py "bad") 0
    (py "c") (py "v")
  = error_dict (py "Token exchange failed: " ++ py "bad").
Proof.
  destruct (success_status_type_errors (fun _ => HttpOk (py "x"))
              (fun _ => Some (PDict [(py "expires_in", PStr (py "3600"))]))
              (fun _ => py "bad") 0 (py "c") (py "v") (py "r") (py "x") (py "x")
              eq_refl eq_refl eq_refl) as [A _].
  destruct (A [(py "expires_in", PStr (py "3600"))] (PStr (py "3600")) eq_refl eq_refl)
    as [E _]; [discriminate|discriminate|].
  exact E.
Defined.

End TokenFacts.

(** ** Further facts: the callback listener *)
Module ListenerFacts.
Import Callback Session CallbackFacts ListenerClaims.

(** The fixed text around the error in the failure page. *)
Definition fail_head : pystr :=
  py "<html><body style='font-family:sans-serif;text-align:center;padding:60px;background:#1a1a2e;color:#e0e0ec;'><h2>Authorization failed</h2><p>".

Definition fail_tail : pystr := py "</p></body></html>".

Lemma page_fail_some (e : pystr) : e <> [] -> page_fail (Some e) = fail_head ++ e ++ fail_tail.
Proof. intros N. unfold page_fail. rewrite (truthy_some e N). reflexivity. Qed.

(** X8: On a listener with no code yet, a GET for another path is answered 404
    and changes nothing; a GET for [/callback] is always answered 200, with
    the success page when it records a code and otherwise with the failure
    page holding the recorded error text verbatim (an [error] parameter is
    written into the HTML unescaped). *)
Theorem do_GET_response (srv : server) (q : query) :
  oauth_code srv = None ->
  (forall p, str_eqb p (py "/callback") = false -> do_GET srv p q = (srv, R404)) /\
  snd (do_GET srv (py "/callback") q)
  = match spec_outcome (expected_state srv) q with
    | OCode _ => R200 page_ok
    | OError e => R200 (fail_head ++ e ++ fail_tail)
    end.
Proof.
  intros Hc. split; [intros p Hp; now apply do_GET_other_path|].
  pose proof (spec_outcome_nonblank (expected_state srv) q) as NB.
  unfold do_GET, spec_outcome in *. rewrite callback_path. cbv zeta. cbn [negb snd].
  destruct (param (py "error") q) as [e|] eqn:E.
  - rewrite (truthy_some e NB). cbn [set_oauth_error oauth_code oauth_error].
    rewrite Hc. cbn [truthy]. now rewrite page_fail_some.
  - change (truthy None) with false. cbn iota.
    destruct (param (py "code") q) as [c|] eqn:C.
    + pose proof (param_nonblank _ _ _ C) as Nc. rewrite (truthy_some c Nc). cbn [negb].
      destruct (param (py "state") q) as [s|].
      * cbn [opt_str_eqb]. destruct (str_eqb s (expected_state srv)).
        -- cbn [negb set_oauth_code oauth_code]. now rewrite (truthy_some c Nc).
        -- cbn [negb set_oauth_error oauth_code oauth_error]. rewrite Hc.
           cbn [truthy]. now rewrite page_fail_some.
      * cbn [opt_str_eqb negb set_oauth_error oauth_code oauth_error]. rewrite Hc.
        cbn [truthy]. now rewrite page_fail_some.
    + change (truthy None) with false. cbn [negb set_oauth_error oauth_code oauth_error].
      rewrite Hc. cbn [truthy]. now rewrite page_fail_some.
Qed.

Lemma do_GET_response_witness :
  snd (do_GET (new_server (py "s")) (py "/callback") [(py "error", py "<script>x</script>")])
  = R200 (fail_head ++ py "<script>x</script>" ++ fail_tail).
Proof.
  rewrite (proj2 (do_GET_response (new_server (py "s")) [(py "error", py "<script>x</script>")]
                    eq_refl)).
  reflexivity.
Defined.

End ListenerFacts.

(** ** Further facts: the worker thread [_serve] *)
Module WorkerFacts.
Import Callback Session PyFacts CallbackFacts ListenerClaims.

Lemma after_request_continue ex ui (c c2 : client) :
  after_request ex ui c = Continue c2 -> c2 = c.
Proof.
  intros H. unfold after_request in H. destruct (c_listener c) as [s|]; [|now inversion H].
  destruct (truthy (oauth_error s)); [discriminate|].
  destruct (truthy (oauth_code s)); [|now inversion H].
  destruct (dict_mem _ _); [discriminate|]. destruct (ui _); discriminate.
Qed.

Lemma handle_one_done (ev : event) (c : client) : c_done (handle_one ev c) = c_done c.
Proof. destruct ev; cbn [handle_one]; [reflexivity|reflexivity|]. now destruct (c_listener c). Qed.

Lemma handle_after_stop ex ui (ev : event) (rest : list event) (c : client) :
  ev <> EvStop -> handle ex ui (EvStop :: ev :: rest) c = handle ex ui [EvStop; ev] c.
Proof.
  intros N. cbn [handle].
  destruct ev as [| |p q]; [congruence| |]; cbn [handle];
    destruct (after_request ex ui (handle_one _ (set_done c))) as [c2|c2|c2] eqn:Ar;
    try reflexivity; apply after_request_continue in Ar; subst c2;
    rewrite handle_one_done; reflexivity.
Qed.

(** X10: Once [stop()] has set [_done], the worker handles at most the request
    it is already waiting for: the events after that one never change its
    result. *)
Theorem serve_ignores_after_stop ex ui (pre rest : list event) (ev : event) (c : client) :
  ev <> EvStop ->
  serve ex ui (pre ++ EvStop :: ev :: rest) c = serve ex ui (pre ++ [EvStop; ev]) c.
Proof.
  intros N. unfold serve. destruct (c_server c), (c_done c); try reflexivity.
  revert c. induction pre as [|x pre IH]; intros c.
  - now apply handle_after_stop.
  - destruct x as [| |p q]; cbn [app handle]; [apply IH| |].
    all: destruct (after_request _ _ _) as [c2|c2|c2]; try reflexivity.
    all: destruct (c_done c2); [reflexivity|apply IH].
Qed.

Lemma serve_ignores_after_stop_witness :
  let q := [(py "code", py "abc"); (py "state", py "s")] in
  serve (fun _ _ => [(py "error", PStr (py "x"))]) (fun _ => None)
        [EvStop; EvRequest (py "/callback") q; EvRequest (py "/callback") q]
        (start (py "v") (py "s") true [] init_client)
  = serve (fun _ _ => [(py "error", PStr (py "x"))]) (fun _ => None)
          [EvStop; EvRequest (py "/callback") q]
          (start (py "v") (py "s") true [] init_client).
Proof.
  intros q. apply (serve_ignores_after_stop _ _ [] [EvRequest (py "/callback") q]).
  discriminate.
Defined.

(** X11: When the exchange succeeds but [extract_user_info] raises on the
    access token (for instance a token that is not a [str]), the worker
    thread dies after the exchange: the session keeps no tokens and no
    error, [_done] stays clear and the listener stays open, so [poll()]
    reports nothing from then on. *)
Theorem worker_crash_leaves_pending ex ui (v st oserr code : pystr)
    (pre rest : list event) (q : query) :
  forallb quiet pre = true ->
  param (py "error") q = None -> param (py "code") q = Some code ->
  param (py "state") q = Some st ->
  dict_mem (ex code v) (py "error") = false ->
  ui (match dict_get (ex code v) (py "access_token") with Some a => a | None => PStr [] end)
  = None ->
  exists c, serve ex ui (pre ++ EvRequest (py "/callback") q :: rest)
                  (start v st true oserr init_client) = WCrashed c /\
    c_tokens c = None /\ c_error c = None /\ c_done c = false /\
    c_exchanges c = [(code, v)] /\
    exists s, c_listener c = Some s /\ bound s = true /\ is_shut_down s = false.
Proof.
  intros Q E C S D U.
  pose proof (param_nonblank _ _ _ C) as N.
  assert (G : fst (do_GET (new_server st) (py "/callback") q)
              = set_oauth_code (new_server st) (Some code)).
  { unfold do_GET. rewrite callback_path. cbv zeta. rewrite E, C, S, (truthy_some code N).
    change (truthy None) with false. cbn [negb opt_str_eqb expected_state new_server].
    rewrite str_eqb_refl. reflexivity. }
  change (serve ex ui (pre ++ EvRequest (py "/callback") q :: rest)
                (start v st true oserr init_client))
    with (handle ex ui (pre ++ EvRequest (py "/callback") q :: rest)
                 (mkClient None None v st true false (Some (new_server st)) [])).
  rewrite (handle_quiet_app ex ui pre _ (mkClient None None v st true false (Some (new_server st)) [])
             (new_server st) Q eq_refl eq_refl eq_refl eq_refl).
  cbn [handle].
  change (handle_one (EvRequest (py "/callback") q)
                     (mkClient None None v st true false (Some (new_server st)) []))
    with (set_listener (mkClient None None v st true false (Some (new_server st)) [])
                       (Some (fst (do_GET (new_server st) (py "/callback") q)))).
  rewrite G. unfold after_request.
  cbn [c_listener set_listener set_oauth_code oauth_error oauth_code new_server c_verifier].
  change (truthy None) with false. rewrite (truthy_some code N). cbn iota.
  rewrite D, U. eexists. split; [reflexivity|].
  cbn. repeat split. eexists. repeat split.
Qed.

Lemma worker_crash_leaves_pending_witness :
  exists c, serve (fun _ _ => [(py "access_token", PInt 5)]) (Jwt.extract_user_info_py (fun _ => None))
                  ([] ++ EvRequest (py "/callback") [(py "code", py "abc"); (py "state", py "s")] :: [])
                  (start (py "v") (py "s") true [] init_client) = WCrashed c /\
    c_tokens c = None /\ c_error c = None /\ c_done c = false /\
    c_exchanges c = [(py "abc", py "v")] /\
    exists s, c_listener c = Some s /\ bound s = true /\ is_shut_down s = false.
Proof.
  apply (worker_crash_leaves_pending (fun _ _ => [(py "access_token", PInt 5)])
           (Jwt.extract_user_info_py (fun _ => None)) (py "v") (py "s") [] (py "abc") [] []);
    reflexivity.
Defined.

End WorkerFacts.

(** ** Further facts: the login dialog [NexusAuthDialog] *)
Module DialogFacts.
Import Callback Session Dialog ListenerClaims.

(** X12: When port 9876 cannot be bound, [_on_auth_start] shows the startup
    error with its [OSError] text, re-enables the button and drops the
    client; polling then changes nothing and Cancel closes the dialog. *)
Theorem dialog_port_busy (v st oserr : pystr) (d : dialog) :
  let d1 := on_auth_start v st false oserr d in
  d_client d1 = None /\
  d_status d1 = SFailedStart (PStr (py "Could not start callback server on port 9876: " ++ oserr)) /\
  d_button d1 = true /\ poll_oauth d1 = Returns d1 /\
  exists d2, on_cancel d1 = Returns d2 /\ d_result d2 = Some false /\ d_timer d2 = false.
Proof.
  cbv zeta.
  assert (H : on_auth_start v st false oserr d
              = mkDialog None (d_timer d) (d_tokens d)
                  (SFailedStart (PStr (py "Could not start callback server on port 9876: " ++ oserr)))
                  true (d_result d)) by reflexivity.
  rewrite H. split; [reflexivity|]. split; [reflexivity|]. split; [reflexivity|].
  split; [reflexivity|]. eexists. split; [reflexivity|]. split; reflexivity.
Qed.

(** X13: Once [_on_auth_start] has started a session on a free port, whatever
    the worker thread did: Cancel (and closing the dialog, which runs the
    same [_stop_oauth]) never returns, and the poll timer never returns
    either as soon as the session holds tokens or an error, since
    [_stop_oauth] calls the session's [stop()]. *)
Theorem dialog_freezes_after_start ex ui (v st oserr : pystr) (evs : list event) (d : dialog) :
  let d1 := worker_ran ex ui evs (on_auth_start v st true oserr d) in
  let c := wclient (serve ex ui evs (start v st true oserr init_client)) in
  stop_oauth d1 = Blocks /\ on_cancel d1 = Blocks /\
  poll_oauth d1 = if opt_truthy (c_tokens c) || opt_truthy (c_error c) then Blocks
                  else Returns d1.
Proof.
  cbv zeta.
  assert (H : on_auth_start v st true oserr d
              = mkDialog (Some (start v st true oserr init_client)) true (d_tokens d)
                         SWaiting false (d_result d)) by reflexivity.
  assert (B : stop (wclient (serve ex ui evs (start v st true oserr init_client))) = Blocks).
  { unfold serve, start. cbn [c_server c_done].
    destruct (serve_keeps_listener ex ui evs
                (mkClient None None v st true false (Some (new_server st)) []) (new_server st)
                eq_refl eq_refl) as [s' [L [Sd Cs]]].
    apply (stop_blocks_when_listening _ s'); auto. }
  rewrite H. unfold worker_ran. cbn [d_client].
  remember (wclient (serve ex ui evs (start v st true oserr init_client))) as c eqn:Ec.
  clear Ec.
  assert (So : stop_oauth (set_client (mkDialog (Some (start v st true oserr init_client)) true
                 (d_tokens d) SWaiting false (d_result d)) (Some c)) = Blocks).
  { unfold stop_oauth. cbn [set_timer set_client d_client]. now rewrite B. }
  split; [exact So|]. split; [unfold on_cancel; now rewrite So|].
  unfold poll_oauth. cbn [set_client d_client].
  destruct (opt_truthy (c_tokens c)); [cbn [orb]; fold (set_client (mkDialog (Some (start v st true oserr init_client)) true
                 (d_tokens d) SWaiting false (d_result d)) (Some c)); now rewrite So|].
  destruct (opt_truthy (c_error c)); cbn [orb]; [|reflexivity].
  fold (set_client (mkDialog (Some (start v st true oserr init_client)) true
                 (d_tokens d) SWaiting false (d_result d)) (Some c)). now rewrite So.
Qed.

End DialogFacts.

(** ** Further facts: [NexusWidget._on_token_refreshed] *)
Module WidgetFacts.
Import TokenClient Jwt Dialog Widget.

(** X14: A token refresh that does not succeed (an HTTP error of any status,
    4xx or 5xx, a network failure, or a 200 response that cannot be read)
    makes the widget clear the stored authorization and emit
    [auth_changed("")]: a transient server or network failure logs the
    user out like a revoked token does. *)
Theorem refresh_failure_clears_auth json_loads_bytes post json_loads str_exn now
    (refresh_token : pystr) :
  (forall body, post (refresh_form refresh_token) = HttpOk body ->
   exists e, read_tokens json_loads now body = inr e) ->
  on_token_refreshed json_loads_bytes
    (refresh_access_token post json_loads str_exn now refresh_token)
  = ([ClearAuth; AuthChanged (PStr [])], false).
Proof.
  intros H. unfold refresh_access_token.
  destruct (post (refresh_form refresh_token)) as [body|c b|m] eqn:P.
  - destruct (H body eq_refl) as [e R]. rewrite R. reflexivity.
  - destruct (_ && _); reflexivity.
  - reflexivity.
Qed.

Lemma refresh_failure_clears_auth_witness :
  on_token_refreshed (fun _ => None)
    (refresh_access_token (fun _ => HttpError 503 None) (fun _ => None) (fun _ => []) 0 (py "r"))
  = ([ClearAuth; AuthChanged (PStr [])], false).
Proof.
  apply refresh_failure_clears_auth. intros body P. discriminate.
Defined.

Lemma extract_user_info_py_shape json_loads_bytes (v ui : pyval) :
  extract_user_info_py json_loads_bytes v = Some ui -> exists u, ui = user_to_py u.
Proof.
  unfold extract_user_info_py. destruct v; try discriminate.
  destruct (extract_user_info json_loads_bytes s) as [u|]; [|discriminate].
  intros [= <-]. eauto.
Qed.

(** X15: A refresh result without ["error"] is always stored, as the
    handler's first call; the user info is stored after it only when the
    name extracted from the access token is non-empty.  An access token on
    which [extract_user_info] raises (for example a [str] whose payload is
    a JSON list, or a value that is not a [str]) makes the handler raise
    right after storing the tokens; a missing one stores the tokens only. *)
Theorem token_refreshed_success json_loads_bytes (d : dict) :
  dict_mem d (py "error") = false ->
  (exists rest raised, on_token_refreshed json_loads_bytes d = (SetTokens d :: rest, raised) /\
     (rest = [] \/ exists u, rest = [SetUserInfo (user_to_py u)] /\ pv_truthy (u_name u) = true)) /\
  (forall t u, dict_get d (py "access_token") = Some (PStr t) ->
   extract_user_info json_loads_bytes t = Some u ->
   on_token_refreshed json_loads_bytes d
   = if pv_truthy (u_name u) then ([SetTokens d; SetUserInfo (user_to_py u)], false)
     else ([SetTokens d], false)) /\
  (forall t, dict_get d (py "access_token") = Some (PStr t) ->
   extract_user_info json_loads_bytes t = None ->
   on_token_refreshed json_loads_bytes d = ([SetTokens d], true)) /\
  (forall v, dict_get d (py "access_token") = Some v -> (forall t, v <> PStr t) ->
   on_token_refreshed json_loads_bytes d = ([SetTokens d], true)) /\
  (dict_get d (py "access_token") = None ->
   on_token_refreshed json_loads_bytes d = ([SetTokens d], false)).
Proof.
  intros NE. unfold on_token_refreshed. rewrite NE. split; [|split; [|split; [|split]]].
  - destruct (extract_user_info_py json_loads_bytes _) as [ui|] eqn:E;
      [|exists [], true; split; [reflexivity|left; reflexivity]].
    destruct (extract_user_info_py_shape _ _ _ E) as [u ->].
    change (py_get (user_to_py u) (py "name") PNone) with (Some (u_name u)). cbn iota.
    destruct (pv_truthy (u_name u)) eqn:T.
    + exists [SetUserInfo (user_to_py u)], false. split; [reflexivity|]. right. eauto.
    + exists [], false. split; [reflexivity|left; reflexivity].
  - intros t u A X. rewrite A. cbn [extract_user_info_py]. rewrite X. reflexivity.
  - intros t A X. rewrite A. cbn [extract_user_info_py]. rewrite X. reflexivity.
  - intros v A N. rewrite A.
    destruct v; try reflexivity. exfalso. exact (N s eq_refl).
  - intros A. rewrite A. reflexivity.
Qed.

Lemma token_refreshed_success_witness :
  on_token_refreshed (fun _ => Some (PList [])) [(py "access_token", PStr (py "h.W10.s"))]
  = ([SetTokens [(py "access_token", PStr (py "h.W10.s"))]], true).
Proof.
  apply (proj1 (proj2 (proj2 (token_refreshed_success (fun _ => Some (PList []))
                                [(py "access_token", PStr (py "h.W10.s"))] eq_refl)))
           (py "h.W10.s") eq_refl).
  reflexivity.
Defined.

End WidgetFacts.

(** ** Further facts: the manual-key fallback [NexusSSOAuth] *)
Module SsoFacts.
Import Callback Sso SsoLoop.

Lemma upd_same (f : nat -> sso) (i : nat) (x : sso) : upd f i x i = x.
Proof. unfold upd. now rewrite Nat.eqb_refl. Qed.

(** The key held after a run of requests: each request with a
    non-blank [api_key] replaces it. *)
Definition last_key (qs : list query) (k0 : option pystr) : option pystr :=
  fold_left (fun acc q => match param (py "api_key") q with Some k => Some k | None => acc end)
            qs k0.

(** The status [do_GET] answers a request with. *)
Definition status_of (q : query) : Z :=
  match param (py "api_key") q with Some _ => 200 | None => 400 end.

(** X16: While the serving loop of an instance runs, it answers every
    request, 200 when it carries a non-blank [api_key] and 400 otherwise;
    the shared key is then the last one received (a later request
    overwrites an earlier key) or the one held before when none came, and
    once [stop()] is called no further request is answered and the key is
    kept. *)
Theorem sso_loop_last_key (i : nat) (qs : list query) (rest : list sso_event) (w : world) :
  s_done (insts w i) = false ->
  sso_serve i (map SReq qs ++ SStop :: rest) w
  = (stop i (mkWorld (last_key qs (api_key w)) (insts w)), map status_of qs).
Proof.
  unfold last_key. revert w. induction qs as [|q qs IH]; intros w D.
  - cbn [map app sso_serve fold_left]. rewrite D. destruct w as [k f].
    destruct rest as [|ev rest]; [reflexivity|].
    cbn [sso_serve]. unfold stop at 1. cbn [insts]. rewrite upd_same. reflexivity.
  - cbn [map app sso_serve fold_left]. rewrite D. unfold handler_get, status_of.
    destruct (param (py "api_key") q) as [k|] eqn:P.
    + pose proof (param_nonblank _ _ _ P) as N.
      destruct k as [|x k]; [congruence|]. cbn [truthy str_eqb negb].
      rewrite IH; [reflexivity|exact D].
    + cbn [truthy]. rewrite IH; [reflexivity|exact D].
Qed.

Lemma sso_loop_last_key_witness :
  let w1 := fst (start_callback_server 0 50000 (mkWorld None (fun _ => sso_init))) in
  sso_serve 0 (map SReq [[(py "api_key", py "A")]; [(py "x", py "1")]; [(py "api_key", py "B")]]
               ++ SStop :: [SReq [(py "api_key", py "C")]]) w1
  = (stop 0 (mkWorld (Some (py "B")) (insts w1)), [200; 400; 200]).
Proof.
  intros w1.
  rewrite (sso_loop_last_key 0 [[(py "api_key", py "A")]; [(py "x", py "1")];
                                 [(py "api_key", py "B")]] _ w1 eq_refl).
  reflexivity.
Defined.

(** X17: [stop()] keeps the captured key for every instance; restarting the
    callback server of a stopped instance clears the key, but its loop
    exits at once ([_done] stays set), so that instance never captures a
    key again. *)
Theorem sso_restart_after_stop (i j : nat) (port : Z) (w : world) (evs : list sso_event) :
  poll_for_key j (stop i w) = poll_for_key j w /\
  let w1 := fst (start_callback_server i port (stop i w)) in
  poll_for_key j w1 = None /\ sso_serve i evs w1 = (w1, []).
Proof.
  split; [reflexivity|]. cbv zeta. split; [reflexivity|].
  destruct evs as [|ev rest]; [reflexivity|]. cbn [sso_serve].
  unfold start_callback_server, stop. cbn [fst insts]. rewrite !upd_same. reflexivity.
Qed.

End SsoFacts.
